(** * register_user.py: registration workflow, embedded and verified

    The script reads a user description from the process environment,
    resolves customer and role references against a MySQL store, inserts
    the user, and announces the registration on NATS JetStream.

    The embedding keeps the shape of the source: every Python function is
    a computation in a state-and-exception monad over a [World] that holds
    the process environment, the store, the broker and a trace of the
    calls the script makes to its collaborators (pymysql, nats, logging,
    print). *)

From Stdlib Require Import ZArith String Ascii List Bool Lia.
From stdpp Require Import base option strings list gmap.

Local Open Scope string_scope.
Local Open Scope list_scope.

(** ** Python values used by the script *)

(** Truthiness of an [Optional[str]]: [None] and the empty string are falsy. *)
Definition truthy (value : option string) : bool :=
  match value with
  | Some s => negb (String.eqb s EmptyString)
  | None => false
  end.

(** The [str] held by a value already known to be truthy. *)
Definition str_of (value : option string) : string :=
  match value with
  | Some s => s
  | None => EmptyString
  end.

(** [needle in haystack] on [str]. *)
Fixpoint contains (needle haystack : string) : bool :=
  String.prefix needle haystack ||
  match haystack with
  | EmptyString => false
  | String _ rest => contains needle rest
  end.

(** [str.lower] on ASCII text. *)
Definition lower_ascii (c : ascii) : ascii :=
  let n := nat_of_ascii c in
  if (65 <=? n)%nat && (n <=? 90)%nat then ascii_of_nat (n + 32) else c.

Fixpoint lower (s : string) : string :=
  match s with
  | EmptyString => EmptyString
  | String c rest => String (lower_ascii c) (lower rest)
  end.

(** ** Data classes *)

Module UserInfo.
Record t := mk { name : string; email : string; customer_id : string; role_id : string }.
End UserInfo.

Module DatabaseConfig.
Record t := mk { host : string; port : Z; user : string; password : string; database : string }.
End DatabaseConfig.

Module NATSConfig.
Record t := mk { server : string; stream : string; subject : string; user : string; password : string }.
End NATSConfig.

(** ** Exceptions *)

(** The messages the script puts into [UserRegistrationError], one
    constructor per [raise] site, with the values interpolated there. *)
Inductive Message :=
| EnvVarNotSet (name : string)
| CustomerNotFound (customer_name : string)
| RoleNotFound (role_name : string)
| CustomerRefMissing
| RoleRefMissing
| UserAlreadyExists (email : string)
| DatabaseIntegrityError (e : string)
| FailedToInsertUser (e : string)
| FailedToPublish (e : string).

(** The text of each message, as the f-strings of the source build it. *)
Definition message_text (m : Message) : string :=
  match m with
  | EnvVarNotSet name => "Required environment variable " +:+ name +:+ " is not set"
  | CustomerNotFound customer_name => "Customer '" +:+ customer_name +:+ "' not found"
  | RoleNotFound role_name => "Role '" +:+ role_name +:+ "' not found"
  | CustomerRefMissing => "Either CUSTOMER_ID or CUSTOMER_NAME must be provided"
  | RoleRefMissing => "Either ROLE_ID or ROLE_NAME must be provided"
  | UserAlreadyExists email => "User with email " +:+ email +:+ " already exists"
  | DatabaseIntegrityError e => "Database integrity error: " +:+ e
  | FailedToInsertUser e => "Failed to insert user: " +:+ e
  | FailedToPublish e => "Failed to publish NATS event: " +:+ e
  end.

(** The exceptions that travel through the script: its own
    [UserRegistrationError], [pymysql.IntegrityError], and every other
    subclass of [Exception] (driver, broker and builtin errors), each of
    the last two with its [str]. *)
Inductive Exception :=
| UserRegistrationError (m : Message)
| IntegrityError (text : string)
| OtherException (text : string).

(** [str(e)]. *)
Definition str (e : Exception) : string :=
  match e with
  | UserRegistrationError m => message_text m
  | IntegrityError text => text
  | OtherException text => text
  end.

(** ** The store *)

Module users.
Record row := mk {
  id : string;
  customer_id : string;
  role_id : string;
  name : string;
  email : string;
  created_at : nat
}.
End users.

(** The five statements the script sends through [cursor.execute]. *)
Inductive Query :=
| SelectCustomerId (customer_name : string)
| SelectRoleId (role_name : string)
| InsertUser (customer_id role_id name email : string)
| SelectLastInsertId
| SelectUserIdByEmail (email : string).

(** The database server together with the script's connection to it.
    - [corporate_customers] and [user_roles] hold [(id, name)] and
      [(id, role_name)];
    - [users_table] is the durable (committed) content of [users];
    - [connection] is [None] while no connection is open, and otherwise
      the view of [users] inside the connection's transaction (pymysql
      connects with autocommit off);
    - [email_key] is the name under which the schema (not part of the
      repository) declares the unique index on [users.email], as the
      server prints it in a duplicate-entry error;
    - [generated_id] and [now] are the identifier and creation time the
      server gives to the next inserted row;
    - [faults] scripts the outcome of the next calls that reach the
      server ([connect], [execute], [commit], [rollback]): [Some e] makes
      the call raise [e] without effect, [None] or an exhausted script
      lets it run. *)
Record Database := mkDatabase {
  corporate_customers : list (string * string);
  user_roles : list (string * string);
  users_table : list users.row;
  connection : option (list users.row);
  email_key : string;
  generated_id : string;
  now : nat;
  faults : list (option Exception)
}.

(** ** The broker *)

(** The payload handed to [json.dumps]: a dict with four fixed keys, the
    last of which holds the [event_data] dict in insertion order. *)
Record EventPayload := mkEventPayload {
  event_type : string;
  user_id : string;
  timestamp : string;
  data : list (string * string)
}.

(** - [nc_open]: a client connection to the server is open;
    - [jetstream]: the messages the stream has acknowledged, oldest first;
    - [nats_faults]: as [faults], for [nats.connect], [js.publish] and
      [nc.close]. *)
Record Broker := mkBroker {
  nc_open : bool;
  jetstream : list (string * EventPayload);
  nats_faults : list (option string)
}.

(** ** Observable calls *)

Inductive LogRecord :=
| StartingRegistration
| ConnectingToDatabase
| ExtractingUserInformation
| RegisteringUser
| InsertedUser (name user_id : string)
| PreparingEventData
| PublishingEvent
| PublishedEvent (subject : string)
| RegistrationCompleted
| RegistrationError (m : Message)
| UnexpectedError (e : string).

Definition log_text (r : LogRecord) : string :=
  match r with
  | StartingRegistration => "Starting user registration process..."
  | ConnectingToDatabase => "Connecting to database..."
  | ExtractingUserInformation => "Extracting user information..."
  | RegisteringUser => "Registering user in database..."
  | InsertedUser name user_id =>
      "Successfully inserted user " +:+ name +:+ " with ID " +:+ user_id
  | PreparingEventData => "Preparing event data..."
  | PublishingEvent => "Publishing event to NATS JetStream..."
  | PublishedEvent subject => "Successfully published event to " +:+ subject
  | RegistrationCompleted => "User registration completed successfully!"
  | RegistrationError m => "Registration error: " +:+ message_text m
  | UnexpectedError e => "Unexpected error: " +:+ e
  end.

Inductive Event :=
| LogInfo (r : LogRecord)
| LogError (r : LogRecord)
| Print (line : string)
| PrintErr (line : string)
| DbConnect (config : DatabaseConfig.t)
| DbExecute (q : Query)
| DbCommit
| DbRollback
| DbClose
| NatsConnect (server user password : string)
| JsPublish (subject : string) (payload : EventPayload)
| NcClose.

(** ** The world a run acts on *)

(** [int_of] is the builtin [int] on [str]: the integer, or, where [int]
    raises [ValueError], the [str] of that exception, whatever text the
    interpreter builds for it; [loop_time] is
    [str(asyncio.get_event_loop().time())]. *)
Record World := mkWorld {
  environ : gmap string string;
  int_of : string -> Z + string;
  loop_time : string;
  db : Database;
  nats : Broker;
  trace : list Event
}.

Definition set_db (d : Database) (w : World) : World :=
  mkWorld (environ w) (int_of w) (loop_time w) d (nats w) (trace w).

Definition set_nats (b : Broker) (w : World) : World :=
  mkWorld (environ w) (int_of w) (loop_time w) (db w) b (trace w).

Definition record_event (ev : Event) (w : World) : World :=
  mkWorld (environ w) (int_of w) (loop_time w) (db w) (nats w) (trace w ++ [ev]).

Definition set_connection (c : option (list users.row)) (d : Database) : Database :=
  mkDatabase (corporate_customers d) (user_roles d) (users_table d) c
    (email_key d) (generated_id d) (now d) (faults d).

Definition set_users_table (rows : list users.row) (d : Database) : Database :=
  mkDatabase (corporate_customers d) (user_roles d) rows (connection d)
    (email_key d) (generated_id d) (now d) (faults d).

Definition set_faults (fs : list (option Exception)) (d : Database) : Database :=
  mkDatabase (corporate_customers d) (user_roles d) (users_table d) (connection d)
    (email_key d) (generated_id d) (now d) fs.

(** ** The monad: state over [World], with Python exceptions *)

Inductive Outcome (A : Type) :=
| Returns (a : A)
| Raises (e : Exception).
Arguments Returns {A} a.
Arguments Raises {A} e.

Definition M (A : Type) : Type := World -> World * Outcome A.

Definition ret {A} (a : A) : M A := fun w => (w, Returns a).

Definition raise {A} (e : Exception) : M A := fun w => (w, Raises e).

Definition bind {A B} (m : M A) (k : A -> M B) : M B := fun w =>
  match m w with
  | (w', Returns a) => k a w'
  | (w', Raises e) => (w', Raises e)
  end.

Notation "x <- m ;; k" := (bind m (fun x => k))
  (at level 100, m at next level, right associativity).
Notation "m ;;; k" := (bind m (fun _ => k))
  (at level 100, right associativity).

(** [try: body  except ... as e: handler e]. An exception raised by the
    handler itself propagates. *)
Definition try_except {A} (body : M A) (handler : Exception -> M A) : M A := fun w =>
  match body w with
  | (w', Returns a) => (w', Returns a)
  | (w', Raises e) => handler e w'
  end.

(** [try: body  finally: cleanup]. *)
Definition try_finally {A} (body : M A) (cleanup : M unit) : M A := fun w =>
  match body w with
  | (w', r) =>
    match cleanup w' with
    | (w'', Returns _) => (w'', r)
    | (w'', Raises e) => (w'', Raises e)
    end
  end.

Definition emit (ev : Event) : M unit := fun w => (record_event ev w, Returns tt).

(** ** The collaborators: pymysql *)

Definition pop_fault (d : Database) : option Exception * Database :=
  match faults d with
  | [] => (None, d)
  | f :: rest => (f, set_faults rest d)
  end.

Definition dq : string := String "034" EmptyString.

(** [str] of the [IntegrityError] (MySQL error 1062) the server answers to
    an insert that repeats a value of a unique index. *)
Definition duplicate_entry (email key : string) : string :=
  "(1062, " +:+ dq +:+ "Duplicate entry '" +:+ email +:+ "' for key '"
    +:+ key +:+ "'" +:+ dq +:+ ")".

(** [ORDER BY created_at DESC LIMIT 1]: the row created last, the earliest
    such row in table order when several share that time. *)
Fixpoint newest (rows : list users.row) : option users.row :=
  match rows with
  | [] => None
  | r :: rest =>
    match newest rest with
    | Some r' => if (users.created_at r <? users.created_at r')%nat then Some r' else Some r
    | None => Some r
    end
  end.

Definition has_email (email : string) (r : users.row) : bool :=
  String.eqb (users.email r) email.

(** What the server does with a statement, given the transaction's view
    of [users]: the new view and the result set (one column per row). *)
Definition run_query (q : Query) (view : list users.row) (d : Database)
  : Outcome (list users.row * list string) :=
  match q with
  | SelectCustomerId customer_name =>
      Returns (view, List.map fst
        (List.filter (fun r => String.eqb (snd r) customer_name) (corporate_customers d)))
  | SelectRoleId role_name =>
      Returns (view, List.map fst
        (List.filter (fun r => String.eqb (snd r) role_name) (user_roles d)))
  | InsertUser customer_id role_id name email =>
      if existsb (has_email email) view
      then Raises (IntegrityError (duplicate_entry email (email_key d)))
      else Returns (view ++ [users.mk (generated_id d) customer_id role_id name email (now d)], [])
  | SelectLastInsertId => Returns (view, ["0"])
  | SelectUserIdByEmail email =>
      Returns (view, match newest (List.filter (has_email email) view) with
                     | Some r => [users.id r]
                     | None => []
                     end)
  end.

(** [pymysql.connect(...)]: a new connection starts from the committed
    state. *)
Definition pymysql_connect (config : DatabaseConfig.t) : M unit := fun w =>
  let w := record_event (DbConnect config) w in
  match pop_fault (db w) with
  | (Some e, d) => (set_db d w, Raises e)
  | (None, d) => (set_db (set_connection (Some (users_table d)) d) w, Returns tt)
  end.

(** [cursor.execute(q)], returning the rows the cursor then holds. *)
Definition cursor_execute (q : Query) : M (list string) := fun w =>
  let w := record_event (DbExecute q) w in
  match connection (db w) with
  | None => (w, Raises (OtherException "(0, '')"))
  | Some view =>
    match pop_fault (db w) with
    | (Some e, d) => (set_db d w, Raises e)
    | (None, d) =>
      match run_query q view d with
      | Returns (view', rows) => (set_db (set_connection (Some view') d) w, Returns rows)
      | Raises e => (set_db d w, Raises e)
      end
    end
  end.

(** [cursor.fetchone()]. *)
Definition fetchone (rows : list string) : option string := head rows.

(** [connection.commit()]: the transaction's view becomes durable. *)
Definition connection_commit : M unit := fun w =>
  let w := record_event DbCommit w in
  match connection (db w) with
  | None => (w, Raises (OtherException "(0, '')"))
  | Some view =>
    match pop_fault (db w) with
    | (Some e, d) => (set_db d w, Raises e)
    | (None, d) => (set_db (set_users_table view d) w, Returns tt)
    end
  end.

(** [connection.rollback()]: the view falls back to the durable state. *)
Definition connection_rollback : M unit := fun w =>
  let w := record_event DbRollback w in
  match connection (db w) with
  | None => (w, Raises (OtherException "(0, '')"))
  | Some _ =>
    match pop_fault (db w) with
    | (Some e, d) => (set_db d w, Raises e)
    | (None, d) => (set_db (set_connection (Some (users_table d)) d) w, Returns tt)
    end
  end.

(** [connection.close()]: uncommitted work is lost with the session. *)
Definition connection_close : M unit := fun w =>
  let w := record_event DbClose w in
  match connection (db w) with
  | None => (w, Raises (OtherException "Already closed"))
  | Some _ => (set_db (set_connection None (db w)) w, Returns tt)
  end.

(** ** The collaborators: nats *)

Definition pop_nats_fault (b : Broker) : option string * Broker :=
  match nats_faults b with
  | [] => (None, b)
  | f :: rest => (f, mkBroker (nc_open b) (jetstream b) rest)
  end.

(** [await nats.connect(servers=[server], user=user, password=password)]. *)
Definition nats_connect (server user password : string) : M unit := fun w =>
  let w := record_event (NatsConnect server user password) w in
  match pop_nats_fault (nats w) with
  | (Some e, b) => (set_nats b w, Raises (OtherException e))
  | (None, b) => (set_nats (mkBroker true (jetstream b) (nats_faults b)) w, Returns tt)
  end.

(** [await js.publish(subject=subject, payload=...)]: returns once the
    stream has acknowledged the message. *)
Definition js_publish (subject : string) (payload : EventPayload) : M unit := fun w =>
  let w := record_event (JsPublish subject payload) w in
  if nc_open (nats w) then
    match pop_nats_fault (nats w) with
    | (Some e, b) => (set_nats b w, Raises (OtherException e))
    | (None, b) =>
        (set_nats (mkBroker (nc_open b) (jetstream b ++ [(subject, payload)]) (nats_faults b)) w,
         Returns tt)
    end
  else (w, Raises (OtherException "nats: connection closed")).

(** [await nc.close()]. *)
Definition nc_close : M unit := fun w =>
  let w := record_event NcClose w in
  match pop_nats_fault (nats w) with
  | (Some e, b) => (set_nats b w, Raises (OtherException e))
  | (None, b) => (set_nats (mkBroker false (jetstream b) (nats_faults b)) w, Returns tt)
  end.

(** ** The script *)

(** [os.getenv(name, default)], then the check of [get_env_var]. *)
Definition get_env_var (name : string) (required : bool) (default : option string)
  : M (option string) := fun w =>
  let value := match environ w !! name with
               | Some v => Some v
               | None => default
               end in
  if required && negb (truthy value)
  then (w, Raises (UserRegistrationError (EnvVarNotSet name)))
  else (w, Returns value).

(** [int(text)]. *)
Definition py_int (text : string) : M Z := fun w =>
  match int_of w text with
  | inl z => (w, Returns z)
  | inr message => (w, Raises (OtherException message))
  end.

Definition get_database_config : M DatabaseConfig.t :=
  host <- get_env_var "DB_HOST" true None ;;
  port_text <- get_env_var "DB_PORT" true (Some "3306") ;;
  port <- py_int (str_of port_text) ;;
  user <- get_env_var "DB_USER" true None ;;
  password <- get_env_var "DB_PASSWORD" true None ;;
  database <- get_env_var "DB_NAME" true None ;;
  ret (DatabaseConfig.mk (str_of host) port (str_of user) (str_of password) (str_of database)).

Definition get_nats_config : M NATSConfig.t :=
  server <- get_env_var "NATS_SERVER" true None ;;
  stream <- get_env_var "NATS_STREAM" true None ;;
  subject <- get_env_var "NATS_SUBJECT" true None ;;
  user <- get_env_var "NATS_USER" true None ;;
  password <- get_env_var "NATS_PASSWORD" true None ;;
  ret (NATSConfig.mk (str_of server) (str_of stream) (str_of subject)
         (str_of user) (str_of password)).

Definition lookup_customer_id (customer_name : string) : M string :=
  rows <- cursor_execute (SelectCustomerId customer_name) ;;
  match fetchone rows with
  | None => raise (UserRegistrationError (CustomerNotFound customer_name))
  | Some id => ret id
  end.

Definition lookup_role_id (role_name : string) : M string :=
  rows <- cursor_execute (SelectRoleId role_name) ;;
  match fetchone rows with
  | None => raise (UserRegistrationError (RoleNotFound role_name))
  | Some id => ret id
  end.

Definition get_user_info : M UserInfo.t :=
  name <- get_env_var "USER_NAME" true None ;;
  email <- get_env_var "USER_EMAIL" true None ;;
  customer_id <- get_env_var "CUSTOMER_ID" false None ;;
  customer_name <- get_env_var "CUSTOMER_NAME" false None ;;
  if negb (truthy customer_id) && negb (truthy customer_name)
  then raise (UserRegistrationError CustomerRefMissing)
  else
  customer_id <- (if truthy customer_name && negb (truthy customer_id)
                  then lookup_customer_id (str_of customer_name)
                  else ret (str_of customer_id)) ;;
  role_id <- get_env_var "ROLE_ID" false None ;;
  role_name <- get_env_var "ROLE_NAME" false None ;;
  if negb (truthy role_id) && negb (truthy role_name)
  then raise (UserRegistrationError RoleRefMissing)
  else
  role_id <- (if truthy role_name && negb (truthy role_id)
              then lookup_role_id (str_of role_name)
              else ret (str_of role_id)) ;;
  ret (UserInfo.mk (str_of name) (str_of email) customer_id role_id).

(** The two [except] clauses of [insert_user]; [UserRegistrationError]
    is an [Exception] and falls to the second. *)
Definition insert_user_except (user_info : UserInfo.t) (e : Exception) : M string :=
  match e with
  | IntegrityError text =>
      if contains "Duplicate entry" text && contains "email" text
      then raise (UserRegistrationError (UserAlreadyExists (UserInfo.email user_info)))
      else raise (UserRegistrationError (DatabaseIntegrityError text))
  | _ =>
      connection_rollback ;;;
      raise (UserRegistrationError (FailedToInsertUser (str e)))
  end.

Definition insert_user (user_info : UserInfo.t) : M string :=
  try_except
    (cursor_execute (InsertUser (UserInfo.customer_id user_info) (UserInfo.role_id user_info)
                       (UserInfo.name user_info) (UserInfo.email user_info)) ;;;
     cursor_execute SelectLastInsertId ;;;
     rows <- cursor_execute (SelectUserIdByEmail (UserInfo.email user_info)) ;;
     user_id <- match fetchone rows with
                | Some id => ret id
                | None => raise (OtherException "'NoneType' object is not subscriptable")
                end ;;
     connection_commit ;;;
     emit (LogInfo (InsertedUser (UserInfo.name user_info) user_id)) ;;;
     ret user_id)
    (insert_user_except user_info).

Definition user_vars : list string :=
  ["USER_NAME"; "USER_EMAIL"; "CUSTOMER_ID"; "CUSTOMER_NAME"; "ROLE_ID"; "ROLE_NAME"].

(** The loop of [prepare_event_data] over the variables still to visit,
    [event_data] being the dict built so far. The keys are distinct, so
    each assignment adds an entry at the end. *)
Fixpoint prepare_event_data_loop (vars : list string) (event_data : list (string * string))
  (env : gmap string string) : list (string * string) :=
  match vars with
  | [] => event_data
  | var :: rest =>
    let value := env !! var in
    prepare_event_data_loop rest
      (if truthy value then event_data ++ [(lower var, str_of value)] else event_data) env
  end.

Definition prepare_event_data : M (list (string * string)) := fun w =>
  (w, Returns (prepare_event_data_loop user_vars [] (environ w))).

Definition publish_event (nats_config : NATSConfig.t) (event_data : list (string * string))
  (user_id : string) : M unit :=
  try_except
    (nats_connect (NATSConfig.server nats_config) (NATSConfig.user nats_config)
       (NATSConfig.password nats_config) ;;;
     time <- (fun w => (w, Returns (loop_time w))) ;;
     let event_payload := mkEventPayload "user_registered" user_id time event_data in
     js_publish (NATSConfig.subject nats_config) event_payload ;;;
     emit (LogInfo (PublishedEvent (NATSConfig.subject nats_config))) ;;;
     nc_close)
    (fun e => raise (UserRegistrationError (FailedToPublish (str e)))).

(** The block of [main] under [try: ... finally: connection.close()]. *)
Definition main_registration (nats_config : NATSConfig.t) : M unit :=
  try_finally
    (emit (LogInfo ExtractingUserInformation) ;;;
     user_info <- get_user_info ;;
     emit (LogInfo RegisteringUser) ;;;
     user_id <- insert_user user_info ;;
     emit (LogInfo PreparingEventData) ;;;
     event_data <- prepare_event_data ;;
     emit (LogInfo PublishingEvent) ;;;
     publish_event nats_config event_data user_id ;;;
     emit (LogInfo RegistrationCompleted) ;;;
     emit (Print ("User registered successfully with ID: " +:+ user_id)))
    connection_close.

(** The outer [try] block of [main]. *)
Definition main_try : M unit :=
  emit (LogInfo StartingRegistration) ;;;
  db_config <- get_database_config ;;
  nats_config <- get_nats_config ;;
  emit (LogInfo ConnectingToDatabase) ;;;
  pymysql_connect db_config ;;;
  main_registration nats_config.

(** [main], with the status the process exits with: both handlers end in
    [sys.exit(1)]. *)
Definition main (w : World) : World * Z :=
  match main_try w with
  | (w', Returns _) => (w', 0%Z)
  | (w', Raises (UserRegistrationError m)) =>
      (record_event (PrintErr ("Error: " +:+ message_text m))
         (record_event (LogError (RegistrationError m)) w'), 1%Z)
  | (w', Raises e) =>
      (record_event (PrintErr ("Unexpected error: " +:+ str e))
         (record_event (LogError (UnexpectedError (str e))) w'), 1%Z)
  end.

(** ** Reading a run *)

(** The calls a run of [main] adds to the trace. *)
Definition events_of (w : World) : list Event :=
  drop (length (trace w)) (trace (fst (main w))).

(** Calls that reach the broker. *)
Definition is_broker_call (ev : Event) : bool :=
  match ev with
  | NatsConnect _ _ _ | JsPublish _ _ | NcClose => true
  | _ => false
  end.


(** The log line [insert_user] writes between its commit and its
    [return user_id]. *)
Definition is_inserted_log (ev : Event) : bool :=
  match ev with
  | LogInfo (InsertedUser _ _) => true
  | _ => false
  end.

Definition is_db_close (ev : Event) : bool :=
  match ev with
  | DbClose => true
  | _ => false
  end.

Definition is_db_rollback (ev : Event) : bool :=
  match ev with
  | DbRollback => true
  | _ => false
  end.

(** Events of a run that has not completed a write: nothing is sent to
    the broker and no insert is logged as done. *)
Definition unwritten (ev : Event) : bool :=
  negb (is_broker_call ev) && negb (is_inserted_log ev).

(** Events that lead up to the write while the connection stays open. *)
Definition before_write (ev : Event) : bool :=
  unwritten ev && negb (is_db_close ev).

(** Neither the process (environment, builtins, clock) nor the broker
    nor the durable or transactional content of [users] is touched, and
    the trace grows by events that lead up to the write. *)
Definition reads_only (w w' : World) : Prop :=
  (exists evs, trace w' = trace w ++ evs /\ forallb before_write evs = true) /\
  environ w' = environ w /\ int_of w' = int_of w /\ loop_time w' = loop_time w /\
  nats w' = nats w /\
  users_table (db w') = users_table (db w) /\
  connection (db w') = connection (db w).

(** The process is untouched. *)
Definition same_process (w w' : World) : Prop :=
  environ w' = environ w /\ int_of w' = int_of w /\ loop_time w' = loop_time w.

(** How the part of a run after [nats.connect] was called can go, with
    the status the process exits with: the event is published and the
    run completes, or the publish step fails at [nats.connect], at
    [js.publish] or at [nc.close]. *)
Inductive publish_outcome (subject : string) (payload : EventPayload) (user_id : string)
  : list Event -> Z -> Prop :=
| run_completed :
    publish_outcome subject payload user_id
      [JsPublish subject payload; LogInfo (PublishedEvent subject); NcClose;
       LogInfo RegistrationCompleted;
       Print ("User registered successfully with ID: " +:+ user_id); DbClose] 0%Z
| connect_failed e :
    publish_outcome subject payload user_id
      [DbClose; LogError (RegistrationError (FailedToPublish e));
       PrintErr ("Error: " +:+ message_text (FailedToPublish e))] 1%Z
| publish_failed e :
    publish_outcome subject payload user_id
      [JsPublish subject payload; DbClose;
       LogError (RegistrationError (FailedToPublish e));
       PrintErr ("Error: " +:+ message_text (FailedToPublish e))] 1%Z
| close_failed e :
    publish_outcome subject payload user_id
      [JsPublish subject payload; LogInfo (PublishedEvent subject); NcClose; DbClose;
       LogError (RegistrationError (FailedToPublish e));
       PrintErr ("Error: " +:+ message_text (FailedToPublish e))] 1%Z.

(** ** Sample worlds *)

Definition sample_environ : gmap string string :=
  list_to_map
    [("USER_NAME", "Alice"); ("USER_EMAIL", "a@x.com");
     ("CUSTOMER_NAME", "Acme"); ("ROLE_ID", "R1");
     ("DB_HOST", "db"); ("DB_USER", "app"); ("DB_PASSWORD", "secret"); ("DB_NAME", "crm");
     ("NATS_SERVER", "nats://broker:4222"); ("NATS_STREAM", "USERS");
     ("NATS_SUBJECT", "users.registered"); ("NATS_USER", "pub");
     ("NATS_PASSWORD", "hunter2")].

(** Two customers share the name Acme. *)
Definition sample_database : Database :=
  mkDatabase [("C1", "Acme"); ("C2", "Acme")] [("R1", "admin")] [] None
    "users.email" "U1" 5 [].

(** [int] on the two texts the sample worlds pass to it, "3306" and
    "mysql"; the other texts stand with the second. *)
Definition sample_int_of (text : string) : Z + string :=
  if String.eqb text "3306" then inl 3306%Z
  else inr "invalid literal for int() with base 10: 'mysql'".

Definition sample_world : World :=
  mkWorld sample_environ sample_int_of "12.5" sample_database (mkBroker false [] []) [].

(** The same world with a broker that accepts the connection and then
    rejects the publish. *)
Definition rejecting_world : World :=
  set_nats (mkBroker false [] [None; Some "nats: no response from stream"]) sample_world.

Definition alice : UserInfo.t := UserInfo.mk "Alice" "a@x.com" "C1" "R1".

(** A world whose open connection already sees a user with Alice's email. *)
Definition duplicate_world : World :=
  set_db (mkDatabase [("C1", "Acme")] [("R1", "admin")]
            [users.mk "U0" "C1" "R1" "Alice A." "a@x.com" 1]
            (Some [users.mk "U0" "C1" "R1" "Alice A." "a@x.com" 1])
            "users.email" "U1" 5 []) sample_world.

(** The sample world after [pymysql.connect]. *)
Definition connected_world : World :=
  set_db (set_connection (Some []) sample_database) sample_world.

(** A request that names both references by identifier. *)
Definition identified_world : World :=
  mkWorld (<["CUSTOMER_ID" := "C9"]> sample_environ) sample_int_of "12.5"
    (set_connection (Some []) sample_database) (mkBroker false [] []) [].

(** A computation that only reads, from every world. *)
Definition reader {A} (m : M A) : Prop := forall w, reads_only w (fst (m w)).

(** Statements that do not change the transaction's view. *)
Definition is_select (q : Query) : bool :=
  match q with
  | InsertUser _ _ _ _ => false
  | _ => true
  end.

(** The fault, if any, scripted for the next call that reaches the server. *)
Definition next_fault (d : Database) : option Exception := fst (pop_fault d).

(** A computation that leaves the world as it found it. *)
Definition silent {A} (m : M A) : Prop := forall w, fst (m w) = w.

Definition is_js_publish (ev : Event) : bool :=
  match ev with
  | JsPublish _ _ => true
  | _ => false
  end.

Definition is_db_commit (ev : Event) : bool :=
  match ev with
  | DbCommit => true
  | _ => false
  end.

(** Every [Q]-event of [evs] comes after some [P]-event ([seen]: one has
    already occurred). *)
Fixpoint precedes_from (seen : bool) (P Q : Event -> bool) (evs : list Event) : bool :=
  match evs with
  | [] => true
  | ev :: rest => (negb (Q ev) || seen) && precedes_from (seen || P ev) P Q rest
  end.

Definition precedes (P Q : Event -> bool) (evs : list Event) : bool :=
  precedes_from false P Q evs.

(** No [Q]-event of [evs] comes after a [P]-event. *)
Fixpoint none_after_from (seen : bool) (P Q : Event -> bool) (evs : list Event) : bool :=
  match evs with
  | [] => true
  | ev :: rest => negb (seen && Q ev) && none_after_from (seen || P ev) P Q rest
  end.

Definition none_after (P Q : Event -> bool) (evs : list Event) : bool :=
  none_after_from false P Q evs.

(** A world in which the insert meets a foreign-key violation. *)
Definition orphan_world : World :=
  set_db (set_faults
            [Some (IntegrityError
                     "(1452, 'Cannot add or update a child row: a foreign key constraint fails')")]
            (set_connection (Some []) sample_database)) sample_world.

(** The sample world with other database and broker credentials. *)
Definition rekeyed_world : World :=
  mkWorld (<["DB_PASSWORD" := "s3cret"]> (<["NATS_PASSWORD" := "hunter3"]> sample_environ))
    sample_int_of "12.5" sample_database (mkBroker false [] []) [].

(** The variables [get_nats_config] reads, in the order it reads them. *)
Definition nats_vars : list string :=
  ["NATS_SERVER"; "NATS_STREAM"; "NATS_SUBJECT"; "NATS_USER"; "NATS_PASSWORD"].

(** The sample world with DB_PORT set to the empty string. *)
Definition empty_port_world : World :=
  mkWorld (<["DB_PORT" := EmptyString]> sample_environ) sample_int_of "12.5" sample_database
    (mkBroker false [] []) [].

(** The sample world with a port that is no number. *)
Definition bad_port_world : World :=
  mkWorld (<["DB_PORT" := "mysql"]> sample_environ) sample_int_of "12.5" sample_database
    (mkBroker false [] []) [].

(** The sample world without NATS_SUBJECT. *)
Definition no_subject_world : World :=
  mkWorld (delete "NATS_SUBJECT" sample_environ) sample_int_of "12.5" sample_database
    (mkBroker false [] []) [].

(** The sample world with a database server that refuses the connection. *)
Definition unreachable_world : World :=
  set_db (set_faults [Some (OtherException "(2003, 'Cannot connect to MySQL server')")]
            sample_database) sample_world.

(** Calls that reach the database server. *)
Definition is_db_call (ev : Event) : bool :=
  match ev with
  | DbConnect _ | DbExecute _ | DbCommit | DbRollback | DbClose => true
  | _ => false
  end.

(** The configurations the sample environment describes. *)
Definition sample_database_config : DatabaseConfig.t :=
  DatabaseConfig.mk "db" 3306 "app" "secret" "crm".

Definition sample_nats_config : NATSConfig.t :=
  NATSConfig.mk "nats://broker:4222" "USERS" "users.registered" "pub" "hunter2".

(** A connected request that names no customer at all. *)
Definition anonymous_world : World :=
  mkWorld (delete "CUSTOMER_NAME" sample_environ) sample_int_of "12.5"
    (set_connection (Some []) sample_database) (mkBroker false [] []) [].

(** A connected request that gives a customer identifier and no role. *)
Definition roleless_world : World :=
  mkWorld (<["CUSTOMER_ID" := "C9"]> (delete "ROLE_ID" sample_environ)) sample_int_of "12.5"
    (set_connection (Some []) sample_database) (mkBroker false [] []) [].

(** A connected request that names a customer the store does not know. *)
Definition unknown_customer_world : World :=
  mkWorld (<["CUSTOMER_NAME" := "Globex"]> sample_environ) sample_int_of "12.5"
    (set_connection (Some []) sample_database) (mkBroker false [] []) [].

(** A connected world whose server fails the commit, the fourth call. *)
Definition commit_failure_world : World :=
  set_db (set_faults
            [None; None; None;
             Some (OtherException "(2013, 'Lost connection to MySQL server during query')")]
            (set_connection (Some []) sample_database)) sample_world.

(** A connected world whose server fails the insert and then the
    rollback. *)
Definition rollback_failure_world : World :=
  set_db (set_faults
            [Some (OtherException "(1205, 'Lock wait timeout exceeded')");
             Some (OtherException "(2006, 'MySQL server has gone away')")]
            (set_connection (Some []) sample_database)) sample_world.

(** The sample world with a broker that acknowledges the message and then
    fails to close. *)
Definition close_failure_world : World :=
  set_nats (mkBroker false [] [None; None; Some "nats: connection lost"]) sample_world.

(** A connected world whose server drops the connection at the next call. *)
Definition lost_connection_world : World :=
  set_db (set_faults
            [Some (OtherException "(2013, 'Lost connection to MySQL server during query')")]
            (set_connection (Some []) sample_database)) sample_world.

(** The fault, if any, scripted for the call that reaches the server
    after [k] others. *)
Definition fault_at (k : nat) (d : Database) : option Exception := nth k (faults d) None.

(** The fault, if any, scripted for the call that reaches the broker
    after [k] others. *)
Definition nats_fault_at (k : nat) (b : Broker) : option string := nth k (nats_faults b) None.

(** The entry, if any, that [prepare_event_data] makes for a variable. *)
Definition event_data_entry (env : gmap string string) (var : string)
  : list (string * string) :=
  if truthy (env !! var) then [(lower var, str_of (env !! var))] else [].

(** A computation that only adds to the trace. *)
Definition grows {A} (m : M A) : Prop :=
  forall w, exists evs, trace (fst (m w)) = trace w ++ evs.

(** * Properties *)

Lemma truthy_nonempty (s : string) : s <> EmptyString -> truthy (Some s) = true.
Proof.
  intros H. unfold truthy. destruct (String.eqb s EmptyString) eqn:E; [|reflexivity].
  apply String.eqb_eq in E. contradiction.
Qed.

Lemma reads_only_refl (w : World) : reads_only w w.
Proof.
  unfold reads_only. repeat split; try reflexivity.
  exists []. split; [symmetry; apply app_nil_r | reflexivity].
Qed.

Lemma reads_only_trans (w1 w2 w3 : World) :
  reads_only w1 w2 -> reads_only w2 w3 -> reads_only w1 w3.
Proof.
  intros [[e1 [T1 F1]] [E1 [I1 [L1 [N1 [U1 C1]]]]]] [[e2 [T2 F2]] [E2 [I2 [L2 [N2 [U2 C2]]]]]].
  unfold reads_only. repeat split; try congruence.
  exists (e1 ++ e2). split.
  - rewrite T2, T1. symmetry. apply app_assoc.
  - rewrite forallb_app, F1, F2. reflexivity.
Qed.

Lemma reader_ret {A} (a : A) : reader (ret a).
Proof. intros w. apply reads_only_refl. Qed.

Lemma reader_raise {A} (e : Exception) : reader (@raise A e).
Proof. intros w. apply reads_only_refl. Qed.

Lemma reader_bind {A B} (m : M A) (k : A -> M B) :
  reader m -> (forall a, reader (k a)) -> reader (bind m k).
Proof.
  intros Hm Hk w. unfold bind. specialize (Hm w).
  destruct (m w) as [w1 [a|e]]; simpl in *; [|exact Hm].
  eapply reads_only_trans; [exact Hm | apply Hk].
Qed.

Lemma reader_get_env_var name required default : reader (get_env_var name required default).
Proof.
  intros w. unfold get_env_var.
  destruct (required && _); apply reads_only_refl.
Qed.

Lemma reader_cursor_execute (q : Query) : is_select q = true -> reader (cursor_execute q).
Proof.
  intros Hq w. unfold cursor_execute.
  assert (R : reads_only w (record_event (DbExecute q) w)).
  { unfold reads_only; simpl. repeat split; try reflexivity. exists [DbExecute q]. split; reflexivity. }
  destruct (connection (db (record_event (DbExecute q) w))) as [view|] eqn:Ec; [|exact R].
  simpl in Ec. unfold pop_fault. simpl.
  destruct (faults (db w)) as [|[e|] rest]; simpl.
  - destruct q; try discriminate Hq; simpl;
      (unfold reads_only; simpl; repeat split; try reflexivity;
       [eexists; split; [reflexivity|reflexivity] | congruence]).
  - unfold reads_only; simpl; repeat split; try reflexivity.
    exists [DbExecute q]; split; reflexivity.
  - destruct q; try discriminate Hq; simpl;
      (unfold reads_only; simpl; repeat split; try reflexivity;
       [eexists; split; [reflexivity|reflexivity] | congruence]).
Qed.

Lemma reader_lookup_customer_id n : reader (lookup_customer_id n).
Proof.
  unfold lookup_customer_id. apply reader_bind.
  - apply reader_cursor_execute. reflexivity.
  - intros rows. destruct (fetchone rows); [apply reader_ret | apply reader_raise].
Qed.

Lemma reader_lookup_role_id n : reader (lookup_role_id n).
Proof.
  unfold lookup_role_id. apply reader_bind.
  - apply reader_cursor_execute. reflexivity.
  - intros rows. destruct (fetchone rows); [apply reader_ret | apply reader_raise].
Qed.

Ltac reader_step :=
  first
    [ apply reader_get_env_var
    | apply reader_lookup_customer_id
    | apply reader_lookup_role_id
    | apply reader_bind; [|intros ?]
    | apply reader_ret
    | apply reader_raise
    | match goal with |- reader (if ?b then _ else _) => destruct b end ].

Lemma reader_get_user_info : reader get_user_info.
Proof. unfold get_user_info. repeat reader_step. Qed.

Lemma get_env_var_world name required default w :
  fst (get_env_var name required default w) = w.
Proof. unfold get_env_var. destruct (required && _); reflexivity. Qed.

Lemma filter_absent (email : string) (view : list users.row) :
  existsb (has_email email) view = false -> List.filter (has_email email) view = [].
Proof.
  induction view as [|r view IH]; simpl; [reflexivity|].
  destruct (has_email email r); simpl; [discriminate | exact IH].
Qed.

Lemma newest_inserted (email : string) (view : list users.row) (r : users.row) :
  existsb (has_email email) view = false ->
  users.email r = email ->
  newest (List.filter (has_email email) (view ++ [r])) = Some r.
Proof.
  intros Hv Hr. rewrite List.filter_app, (filter_absent _ _ Hv). simpl.
  unfold has_email. rewrite Hr, String.eqb_refl. reflexivity.
Qed.

Lemma insert_user_returns ui w w' uid view :
  connection (db w) = Some view ->
  insert_user ui w = (w', Returns uid) ->
  trace w' = trace w ++
    [DbExecute (InsertUser (UserInfo.customer_id ui) (UserInfo.role_id ui)
                  (UserInfo.name ui) (UserInfo.email ui));
     DbExecute SelectLastInsertId;
     DbExecute (SelectUserIdByEmail (UserInfo.email ui));
     DbCommit;
     LogInfo (InsertedUser (UserInfo.name ui) uid)] /\
  existsb (has_email (UserInfo.email ui)) view = false /\
  uid = generated_id (db w) /\
  users_table (db w') =
    view ++ [users.mk uid (UserInfo.customer_id ui) (UserInfo.role_id ui)
               (UserInfo.name ui) (UserInfo.email ui) (now (db w))] /\
  connection (db w') = Some (users_table (db w')) /\
  same_process w w' /\ nats w' = nats w.
Proof.
  intros Hc H.
  destruct w as [env io lt d b tr]; destruct d as [cc ur ut conn ek gid nw fs].
  simpl in Hc; subst conn.
  unfold insert_user, insert_user_except, try_except, bind, cursor_execute, connection_commit,
    connection_rollback, emit, ret, raise, pop_fault, fetchone, run_query in H.
  repeat (cbn in H;
    first [ rewrite newest_inserted in H by (assumption || reflexivity)
          | match type of H with
            | context [match ?x with _ => _ end] => is_var x; destruct x
            | context [existsb ?f ?l] => destruct (existsb f l) eqn:?
            | context [contains ?a ?b && contains ?c ?d] => destruct (contains a b && contains c d)
            end ]); try discriminate H.
  all: inversion H; subst; clear H; cbn.
  all: unfold same_process; cbn; rewrite <- ?app_assoc; repeat split; reflexivity.
Qed.

Ltac run_insert_user H :=
  unfold insert_user, insert_user_except, try_except, bind, cursor_execute, connection_commit,
    connection_rollback, emit, ret, raise, pop_fault, fetchone, run_query in H;
  repeat (cbn in H;
    first [ rewrite newest_inserted in H by (assumption || reflexivity)
          | match type of H with
            | context [match ?x with _ => _ end] => is_var x; destruct x
            | context [existsb ?f ?l] => destruct (existsb f l) eqn:?
            | context [contains ?a ?b && contains ?c ?d] => destruct (contains a b && contains c d)
            end ]).

Lemma insert_user_raises ui w w' e view :
  connection (db w) = Some view ->
  insert_user ui w = (w', Raises e) ->
  (exists evs, trace w' = trace w ++ evs /\ forallb before_write evs = true) /\
  users_table (db w') = users_table (db w) /\
  connection (db w') <> None /\
  same_process w w' /\ nats w' = nats w.
Proof.
  intros Hc H.
  destruct w as [env io lt d b tr]; destruct d as [cc ur ut conn ek gid nw fs].
  simpl in Hc; subst conn.
  run_insert_user H; try discriminate H.
  all: inversion H; subst; clear H; cbn.
  all: unfold same_process; cbn; rewrite <- ?app_assoc; repeat split; try reflexivity;
    try discriminate.
  all: eexists; split; [reflexivity | reflexivity].
Qed.

Lemma publish_event_spec cfg event_data uid w :
  let payload := mkEventPayload "user_registered" uid (loop_time w) event_data in
  let subject := NATSConfig.subject cfg in
  let connect := NatsConnect (NATSConfig.server cfg) (NATSConfig.user cfg)
                   (NATSConfig.password cfg) in
  let w' := fst (publish_event cfg event_data uid w) in
  let r := snd (publish_event cfg event_data uid w) in
  db w' = db w /\ same_process w w' /\
  ((r = Returns tt /\
    trace w' = trace w ++ [connect; JsPublish subject payload;
                           LogInfo (PublishedEvent subject); NcClose]) \/
   (exists e, r = Raises (UserRegistrationError (FailedToPublish e)) /\
      (trace w' = trace w ++ [connect] \/
       trace w' = trace w ++ [connect; JsPublish subject payload] \/
       trace w' = trace w ++ [connect; JsPublish subject payload;
                              LogInfo (PublishedEvent subject); NcClose]))).
Proof.
  destruct w as [env io lt d b tr]; destruct b as [o js fs].
  unfold publish_event, try_except, bind, nats_connect, js_publish, nc_close, emit, ret, raise,
    pop_nats_fault.
  cbn.
  destruct fs as [|[e1|] [|[e2|] [|[e3|] fs]]]; cbn; unfold same_process; cbn;
    rewrite <- ?app_assoc; cbn; (split; [reflexivity|split;[repeat split|]]).
  all: first [ left; split; reflexivity
             | right; eexists; split; [reflexivity|];
               first [ left; reflexivity | right; left; reflexivity | right; right; reflexivity ] ].
Qed.

Lemma silent_ret {A} (a : A) : silent (ret a).
Proof. intros w. reflexivity. Qed.

Lemma silent_bind {A B} (m : M A) (k : A -> M B) :
  silent m -> (forall a, silent (k a)) -> silent (bind m k).
Proof.
  intros Hm Hk w. unfold bind. specialize (Hm w).
  destruct (m w) as [w1 [a|e]]; simpl in *; subst; [apply Hk | reflexivity].
Qed.

Lemma silent_get_env_var name required default : silent (get_env_var name required default).
Proof. intros w. apply get_env_var_world. Qed.

Lemma silent_py_int text : silent (py_int text).
Proof. intros w. unfold py_int. destruct (int_of w text); reflexivity. Qed.

Ltac silent_step :=
  first [ apply silent_get_env_var | apply silent_py_int | apply silent_ret
        | apply silent_bind; [|intros ?] ].

Lemma silent_get_database_config : silent get_database_config.
Proof. unfold get_database_config. repeat silent_step. Qed.

Lemma silent_get_nats_config : silent get_nats_config.
Proof. unfold get_nats_config. repeat silent_step. Qed.

Lemma pymysql_connect_spec config w :
  let w' := fst (pymysql_connect config w) in
  trace w' = trace w ++ [DbConnect config] /\
  same_process w w' /\ nats w' = nats w /\
  users_table (db w') = users_table (db w) /\
  (forall u, snd (pymysql_connect config w) = Returns u ->
     connection (db w') = Some (users_table (db w))).
Proof.
  destruct w as [env io lt d b tr]; destruct d as [cc ur ut conn ek gid nw fs].
  unfold pymysql_connect, pop_fault, same_process. cbn.
  destruct fs as [|[e|] fs]; cbn; repeat split; try reflexivity; intros; discriminate.
Qed.

Lemma connection_close_spec w view :
  connection (db w) = Some view ->
  connection_close w =
    (set_db (set_connection None (db w)) (record_event DbClose w), Returns tt).
Proof. intros H. unfold connection_close. cbn. rewrite H. reflexivity. Qed.

Lemma connection_close_frame w :
  let w' := fst (connection_close w) in
  trace w' = trace w ++ [DbClose] /\ users_table (db w') = users_table (db w).
Proof.
  unfold connection_close. cbn. destruct (connection (db w)); cbn; split; reflexivity.
Qed.

Lemma events_of_eq w evs : trace (fst (main w)) = trace w ++ evs -> events_of w = evs.
Proof. intros H. unfold events_of. rewrite H. apply drop_app_length. Qed.

Lemma bind_emit {B} (ev : Event) (k : unit -> M B) (w : World) :
  bind (emit ev) k w = k tt (record_event ev w).
Proof. reflexivity. Qed.

Lemma bind_returns {A B} (m : M A) (k : A -> M B) w w1 a :
  m w = (w1, Returns a) -> bind m k w = k a w1.
Proof. intros H. unfold bind. rewrite H. reflexivity. Qed.

Lemma bind_raises {A B} (m : M A) (k : A -> M B) w w1 e :
  m w = (w1, Raises e) -> bind m k w = (w1, Raises e).
Proof. intros H. unfold bind. rewrite H. reflexivity. Qed.

Lemma before_write_unwritten evs :
  forallb before_write evs = true -> forallb unwritten evs = true.
Proof.
  intros H. apply forallb_forall. intros x Hx.
  rewrite forallb_forall in H. specialize (H x Hx).
  unfold before_write in H. apply andb_true_iff in H. apply H.
Qed.

Local Arguments prepare_event_data_loop : simpl never.

Lemma main_registration_shape cfg w view w' r :
  connection (db w) = Some view ->
  main_registration cfg w = (w', r) ->
  let subject := NATSConfig.subject cfg in
  (exists evs e,
     trace w' = trace w ++ evs /\ forallb unwritten evs = true /\
     users_table (db w') = users_table (db w) /\ r = Raises e) \/
  (exists pre ui uid t post,
     let payload := mkEventPayload "user_registered" uid (loop_time w)
                      (prepare_event_data_loop user_vars [] (environ w)) in
     trace w' = trace w ++ pre ++
       [DbExecute (InsertUser (UserInfo.customer_id ui) (UserInfo.role_id ui)
                     (UserInfo.name ui) (UserInfo.email ui));
        DbExecute SelectLastInsertId;
        DbExecute (SelectUserIdByEmail (UserInfo.email ui));
        DbCommit;
        LogInfo (InsertedUser (UserInfo.name ui) uid);
        LogInfo PreparingEventData; LogInfo PublishingEvent;
        NatsConnect (NATSConfig.server cfg) (NATSConfig.user cfg) (NATSConfig.password cfg)]
       ++ post /\
     forallb before_write pre = true /\
     existsb (has_email (UserInfo.email ui)) view = false /\
     users_table (db w') =
       view ++ [users.mk uid (UserInfo.customer_id ui) (UserInfo.role_id ui)
                  (UserInfo.name ui) (UserInfo.email ui) t] /\
     ((r = Returns tt /\
       post = [JsPublish subject payload; LogInfo (PublishedEvent subject); NcClose;
               LogInfo RegistrationCompleted;
               Print ("User registered successfully with ID: " +:+ uid); DbClose]) \/
      (exists e, r = Raises (UserRegistrationError (FailedToPublish e)) /\
         (post = [DbClose] \/
          post = [JsPublish subject payload; DbClose] \/
          post = [JsPublish subject payload; LogInfo (PublishedEvent subject); NcClose;
                  DbClose])))).
Proof.
  intros Hc H. unfold main_registration, try_finally in H.
  rewrite bind_emit in H.
  set (w1 := record_event (LogInfo ExtractingUserInformation) w) in H.
  pose proof (reader_get_user_info w1) as R.
  destruct (get_user_info w1) as [w2 [ui|e]] eqn:E2; simpl in R;
    destruct R as [[evs [T2 F2]] [En2 [Io2 [Lt2 [Na2 [Ut2 Co2]]]]]];
    pose proof (before_write_unwritten _ F2) as U2.
  2:{ rewrite (bind_raises _ _ _ _ _ E2) in H.
      pose proof (connection_close_frame w2) as [Tc Uc].
      left. exists ((LogInfo ExtractingUserInformation :: evs) ++ [DbClose]).
      destruct (connection_close w2) as [w3 [[]|e3]]; simpl in Tc, Uc;
        injection H as <- <-; eexists; repeat split.
      all: try (rewrite Tc, T2; subst w1; cbn; rewrite <- ?app_assoc; reflexivity).
      all: try (rewrite Uc, Ut2; reflexivity).
      all: rewrite forallb_app; cbn; rewrite U2; reflexivity. }
  rewrite (bind_returns _ _ _ _ _ E2), bind_emit in H.
  set (w3 := record_event (LogInfo RegisteringUser) w2) in H.
  assert (Hc3 : connection (db w3) = Some view) by (subst w3 w1; cbn; cbn in Co2; congruence).
  destruct (insert_user ui w3) as [w4 [uid|e]] eqn:E4.
  2:{ rewrite (bind_raises _ _ _ _ _ E4) in H.
      destruct (insert_user_raises _ _ _ _ _ Hc3 E4) as [[evs4 [T4 F4]] [Ut4 [Co4 [Sp4 Na4]]]].
      pose proof (before_write_unwritten _ F4) as U4.
      pose proof (connection_close_frame w4) as [Tc Uc].
      left.
      exists ((LogInfo ExtractingUserInformation :: evs) ++ (LogInfo RegisteringUser :: evs4)
              ++ [DbClose]).
      destruct (connection_close w4) as [w5 [[]|e5]]; simpl in Tc, Uc;
        injection H as <- <-; eexists; repeat split.
      all: try (rewrite Tc, T4; subst w3; cbn; rewrite T2; subst w1; cbn;
                rewrite <- ?app_assoc; reflexivity).
      all: try (rewrite Uc, Ut4; subst w3; cbn; rewrite Ut2; reflexivity).
      all: repeat (first [rewrite forallb_app | progress cbn]); rewrite U2, U4; reflexivity. }
  rewrite (bind_returns _ _ _ _ _ E4), bind_emit in H.
  destruct (insert_user_returns _ _ _ _ _ Hc3 E4)
    as [T4 [Ex4 [Id4 [Ut4 [Co4 [[En4 [Io4 Lt4]] Na4]]]]]].
  unfold prepare_event_data in H. unfold bind at 1 in H. rewrite bind_emit in H.
  set (w5 := record_event (LogInfo PublishingEvent)
               (record_event (LogInfo PreparingEventData) w4)) in H.
  set (data := prepare_event_data_loop user_vars [] _) in H.
  assert (Hdata : data = prepare_event_data_loop user_vars [] (environ w)).
  { subst data. cbn [environ record_event]. rewrite En4. subst w3.
    cbn [environ record_event]. rewrite En2. reflexivity. }
  clearbody data. subst data.
  assert (Hlt : loop_time w5 = loop_time w).
  { subst w5. cbn. rewrite Lt4. subst w3. cbn. rewrite Lt2. reflexivity. }
  assert (Htr : trace w5 = trace w ++
     (LogInfo ExtractingUserInformation :: evs ++ [LogInfo RegisteringUser]) ++
     [DbExecute (InsertUser (UserInfo.customer_id ui) (UserInfo.role_id ui)
                     (UserInfo.name ui) (UserInfo.email ui));
        DbExecute SelectLastInsertId;
        DbExecute (SelectUserIdByEmail (UserInfo.email ui));
        DbCommit;
        LogInfo (InsertedUser (UserInfo.name ui) uid);
        LogInfo PreparingEventData; LogInfo PublishingEvent]).
  { subst w5. cbn. rewrite T4. subst w3. cbn. rewrite T2. subst w1. cbn.
    rewrite <- ?app_assoc. cbn. rewrite <- ?app_assoc. reflexivity. }
  assert (Hdb : db w5 = db w4) by reflexivity.
  assert (Hpre : forallb before_write
            (LogInfo ExtractingUserInformation :: evs ++ [LogInfo RegisteringUser]) = true).
  { cbn. rewrite forallb_app, F2. reflexivity. }
  pose proof (publish_event_spec cfg (prepare_event_data_loop user_vars [] (environ w)) uid w5)
    as P.
  cbn zeta in P. rewrite Hlt in P.
  clearbody w5.
  destruct (publish_event cfg _ uid w5) as [w6 [[]|e6]] eqn:E6; simpl in P;
    destruct P as [Db6 [Sp6 P]].
  - destruct P as [[_ T6] | [e [Habs _]]]; [|discriminate Habs].
    rewrite (bind_returns _ _ _ _ _ E6) in H. cbv beta in H. rewrite !bind_emit in H.
    unfold emit in H.
    set (w7 := record_event (Print _) (record_event (LogInfo RegistrationCompleted) w6)) in H.
    assert (Hc7 : connection (db w7) = Some (users_table (db w4))).
    { subst w7. cbn. rewrite Db6, Hdb. exact Co4. }
    rewrite (connection_close_spec _ _ Hc7) in H. injection H as <- <-.
    right. exists (LogInfo ExtractingUserInformation :: evs ++ [LogInfo RegisteringUser]),
      ui, uid, (now (db w3)). eexists. cbn zeta.
    split; [|split; [exact Hpre|split; [exact Ex4|split]]].
    + subst w7. cbn [trace record_event set_db]. rewrite T6, Htr.
      rewrite <- ?app_assoc. cbn [app]. reflexivity.
    + subst w7. cbn. rewrite Db6, Hdb. exact Ut4.
    + left. split; reflexivity.
  - destruct P as [[Habs _] | [e [He T6]]]; [discriminate Habs|].
    rewrite (bind_raises _ _ _ _ _ E6) in H.
    assert (Hc6 : connection (db w6) = Some (users_table (db w4))).
    { rewrite Db6, Hdb. exact Co4. }
    rewrite (connection_close_spec _ _ Hc6) in H. injection H as <- <-.
    right. exists (LogInfo ExtractingUserInformation :: evs ++ [LogInfo RegisteringUser]),
      ui, uid, (now (db w3)).
    destruct T6 as [T6|[T6|T6]]; eexists; cbn zeta;
      (split; [|split; [exact Hpre|split; [exact Ex4|split]]]).
    all: try (cbn [trace record_event set_db]; rewrite T6, Htr;
              rewrite <- ?app_assoc; cbn [app]; reflexivity).
    all: try (cbn; rewrite Db6, Hdb; exact Ut4).
    all: right; exists e; split; [exact He|].
    + left; reflexivity.
    + right; left; reflexivity.
    + right; right; reflexivity.
Qed.

Lemma main_try_shape w w' r :
  main_try w = (w', r) ->
  (exists evs e,
     trace w' = trace w ++ evs /\ forallb unwritten evs = true /\
     users_table (db w') = users_table (db w) /\ r = Raises e) \/
  (exists pre ui uid t cfg post,
     let subject := NATSConfig.subject cfg in
     let payload := mkEventPayload "user_registered" uid (loop_time w)
                      (prepare_event_data_loop user_vars [] (environ w)) in
     trace w' = trace w ++ pre ++
       [DbExecute (InsertUser (UserInfo.customer_id ui) (UserInfo.role_id ui)
                     (UserInfo.name ui) (UserInfo.email ui));
        DbExecute SelectLastInsertId;
        DbExecute (SelectUserIdByEmail (UserInfo.email ui));
        DbCommit;
        LogInfo (InsertedUser (UserInfo.name ui) uid);
        LogInfo PreparingEventData; LogInfo PublishingEvent;
        NatsConnect (NATSConfig.server cfg) (NATSConfig.user cfg) (NATSConfig.password cfg)]
       ++ post /\
     forallb before_write pre = true /\
     existsb (has_email (UserInfo.email ui)) (users_table (db w)) = false /\
     users_table (db w') =
       users_table (db w) ++
         [users.mk uid (UserInfo.customer_id ui) (UserInfo.role_id ui)
            (UserInfo.name ui) (UserInfo.email ui) t] /\
     ((r = Returns tt /\
       post = [JsPublish subject payload; LogInfo (PublishedEvent subject); NcClose;
               LogInfo RegistrationCompleted;
               Print ("User registered successfully with ID: " +:+ uid); DbClose]) \/
      (exists e, r = Raises (UserRegistrationError (FailedToPublish e)) /\
         (post = [DbClose] \/
          post = [JsPublish subject payload; DbClose] \/
          post = [JsPublish subject payload; LogInfo (PublishedEvent subject); NcClose;
                  DbClose])))).
Proof.
  intros H. unfold main_try in H. rewrite bind_emit in H.
  set (w0 := record_event (LogInfo StartingRegistration) w) in H.
  pose proof (silent_get_database_config w0) as S1.
  destruct (get_database_config w0) as [w1 [dbc|e]] eqn:E1; simpl in S1; subst w1.
  2:{ rewrite (bind_raises _ _ _ _ _ E1) in H. injection H as <- <-.
      left. exists [LogInfo StartingRegistration], e. repeat split. }
  rewrite (bind_returns _ _ _ _ _ E1) in H.
  pose proof (silent_get_nats_config w0) as S2.
  destruct (get_nats_config w0) as [w1 [cfg|e]] eqn:E2; simpl in S2; subst w1.
  2:{ rewrite (bind_raises _ _ _ _ _ E2) in H. injection H as <- <-.
      left. exists [LogInfo StartingRegistration], e. repeat split. }
  rewrite (bind_returns _ _ _ _ _ E2), bind_emit in H.
  set (w2 := record_event (LogInfo ConnectingToDatabase) w0) in H.
  pose proof (pymysql_connect_spec dbc w2) as [T3 [[En3 [Io3 Lt3]] [Na3 [Ut3 Co3]]]].
  destruct (pymysql_connect dbc w2) as [w3 [[]|e]] eqn:E3; simpl in T3, En3, Io3, Lt3, Na3, Ut3, Co3.
  2:{ rewrite (bind_raises _ _ _ _ _ E3) in H. injection H as <- <-.
      left. exists [LogInfo StartingRegistration; LogInfo ConnectingToDatabase; DbConnect dbc], e.
      repeat split.
      - rewrite T3. subst w2 w0. cbn. rewrite <- ?app_assoc. reflexivity.
      - rewrite Ut3. reflexivity. }
  rewrite (bind_returns _ _ _ _ _ E3) in H.
  specialize (Co3 tt eq_refl).
  assert (Hc : connection (db w3) = Some (users_table (db w))) by (rewrite Co3; reflexivity).
  assert (Ht : trace w3 = trace w ++
            [LogInfo StartingRegistration; LogInfo ConnectingToDatabase; DbConnect dbc]).
  { rewrite T3. subst w2 w0. cbn. rewrite <- ?app_assoc. reflexivity. }
  assert (He : environ w3 = environ w) by (rewrite En3; reflexivity).
  assert (Hl : loop_time w3 = loop_time w) by (rewrite Lt3; reflexivity).
  assert (Hu : users_table (db w3) = users_table (db w)) by (rewrite Ut3; reflexivity).
  clearbody w2 w0. clear - H Hc Ht He Hl Hu.
  destruct (main_registration_shape _ _ _ _ _ Hc H)
    as [[evs [e [T [U [Ut R]]]]] | [pre [ui [uid [t [post [T [F [Ex [Ut R]]]]]]]]]].
  - left. exists ([LogInfo StartingRegistration; LogInfo ConnectingToDatabase; DbConnect dbc]
                  ++ evs), e.
    repeat split.
    + rewrite T, Ht, <- app_assoc. reflexivity.
    + rewrite forallb_app, U. reflexivity.
    + congruence.
    + exact R.
  - right.
    exists ([LogInfo StartingRegistration; LogInfo ConnectingToDatabase; DbConnect dbc] ++ pre),
      ui, uid, t, cfg, post.
    cbn zeta. rewrite Hl, He in *.
    split; [|split; [|split; [exact Ex|split; [exact Ut|exact R]]]].
    + rewrite T, Ht, <- !app_assoc. reflexivity.
    + rewrite forallb_app, F. reflexivity.
Qed.

Lemma main_shape w :
  (forallb unwritten (events_of w) = true /\
   users_table (db (fst (main w))) = users_table (db w) /\
   snd (main w) = 1%Z) \/
  (exists pre ui uid t cfg post,
     let payload := mkEventPayload "user_registered" uid (loop_time w)
                      (prepare_event_data_loop user_vars [] (environ w)) in
     events_of w = pre ++
       [DbExecute (InsertUser (UserInfo.customer_id ui) (UserInfo.role_id ui)
                     (UserInfo.name ui) (UserInfo.email ui));
        DbExecute SelectLastInsertId;
        DbExecute (SelectUserIdByEmail (UserInfo.email ui));
        DbCommit;
        LogInfo (InsertedUser (UserInfo.name ui) uid);
        LogInfo PreparingEventData; LogInfo PublishingEvent;
        NatsConnect (NATSConfig.server cfg) (NATSConfig.user cfg) (NATSConfig.password cfg)]
       ++ post /\
     forallb before_write pre = true /\
     existsb (has_email (UserInfo.email ui)) (users_table (db w)) = false /\
     users_table (db (fst (main w))) =
       users_table (db w) ++
         [users.mk uid (UserInfo.customer_id ui) (UserInfo.role_id ui)
            (UserInfo.name ui) (UserInfo.email ui) t] /\
     publish_outcome (NATSConfig.subject cfg) payload uid post (snd (main w))).
Proof.
  destruct (main_try w) as [w' r] eqn:H.
  destruct (main_try_shape _ _ _ H)
    as [[evs [e [T [U [Ut R]]]]] | [pre [ui [uid [t [cfg [post [T [F [Ex [Ut R]]]]]]]]]]].
  - left. subst r.
    assert (Hm : exists tail, forallb unwritten tail = true /\
               main w = (mkWorld (environ w') (int_of w') (loop_time w') (db w') (nats w')
                           (trace w' ++ tail), 1%Z)).
    { unfold main. rewrite H. destruct e as [m|text|text].
      all: eexists; split; [|unfold record_event; cbn; rewrite <- app_assoc; reflexivity].
      all: reflexivity. }
    destruct Hm as [tail [Utl Hm]].
    rewrite (events_of_eq w (evs ++ tail)).
    + rewrite Hm. cbn. rewrite forallb_app, U, Utl. repeat split. exact Ut.
    + rewrite Hm. cbn. rewrite T, <- app_assoc. reflexivity.
  - right. exists pre, ui, uid, t, cfg. cbn zeta in *.
    destruct R as [[-> ->] | [e [-> Hpost]]].
    + assert (Hm : main w = (w', 0%Z)) by (unfold main; rewrite H; reflexivity).
      eexists. rewrite Hm. cbn [fst snd].
      split; [apply events_of_eq; rewrite Hm; exact T|].
      split; [exact F|split; [exact Ex|split; [exact Ut|]]].
      apply run_completed.
    + assert (Hm : main w =
                (record_event (PrintErr ("Error: " +:+ message_text (FailedToPublish e)))
                   (record_event (LogError (RegistrationError (FailedToPublish e))) w'), 1%Z))
        by (unfold main; rewrite H; reflexivity).
      exists (post ++ [LogError (RegistrationError (FailedToPublish e));
                       PrintErr ("Error: " +:+ message_text (FailedToPublish e))]).
      rewrite Hm. cbn [fst snd].
      split; [apply events_of_eq; rewrite Hm; cbn [fst trace record_event];
              rewrite T, <- !app_assoc; reflexivity|].
      split; [exact F|split; [exact Ex|split; [exact Ut|]]].
      destruct Hpost as [-> | [-> | ->]]; cbn [app].
      * apply connect_failed.
      * apply publish_failed.
      * apply close_failed.
Qed.

(** ** Reference resolution *)

(** C6. A request that supplies a customer identifier and a role
    identifier is resolved without any call to the store and without any
    other effect: [get_user_info] leaves the world, trace included, as it
    found it, whatever the tables hold, and the identifiers it returns are
    the supplied ones. It can only fail on a missing name or email. *)
Theorem supplied_identifiers_pass_through (w : World) (c r : string) :
  environ w !! "CUSTOMER_ID" = Some c -> c <> EmptyString ->
  environ w !! "ROLE_ID" = Some r -> r <> EmptyString ->
  fst (get_user_info w) = w /\
  match snd (get_user_info w) with
  | Returns user_info =>
      user_info = UserInfo.mk (str_of (environ w !! "USER_NAME"))
                    (str_of (environ w !! "USER_EMAIL")) c r
  | Raises e =>
      e = UserRegistrationError (EnvVarNotSet "USER_NAME") \/
      e = UserRegistrationError (EnvVarNotSet "USER_EMAIL")
  end /\
  (truthy (environ w !! "USER_NAME") = true ->
   truthy (environ w !! "USER_EMAIL") = true ->
   exists user_info, snd (get_user_info w) = Returns user_info).
Proof.
  intros Hc Hcn Hr Hrn.
  pose proof (truthy_nonempty c Hcn) as Tc. pose proof (truthy_nonempty r Hrn) as Tr.
  assert (T0 : truthy None = false) by reflexivity.
  destruct (environ w !! "USER_NAME") as [n|] eqn:En;
    [destruct (truthy (Some n)) eqn:Tn|];
    (destruct (environ w !! "USER_EMAIL") as [m|] eqn:Em;
     [destruct (truthy (Some m)) eqn:Tm|]).
  all: unfold get_user_info, bind, get_env_var, ret, raise.
  all: repeat first
         [ rewrite En | rewrite Em | rewrite Hc | rewrite Hr
         | rewrite Tc | rewrite Tr | rewrite T0 | rewrite andb_false_r
         | match goal with H : truthy (Some _) = _ |- _ => rewrite H end
         | progress cbn [andb negb fst snd str_of]
         | progress cbv beta iota zeta ].
  all: repeat split; eauto; try discriminate.
Qed.

(** The identifier C9 names no customer of the sample store, and is
    passed through all the same. *)
Lemma supplied_identifiers_pass_through_witness :
  fst (get_user_info identified_world) = identified_world /\
  match snd (get_user_info identified_world) with
  | Returns user_info =>
      user_info = UserInfo.mk (str_of (environ identified_world !! "USER_NAME"))
                    (str_of (environ identified_world !! "USER_EMAIL")) "C9" "R1"
  | Raises e =>
      e = UserRegistrationError (EnvVarNotSet "USER_NAME") \/
      e = UserRegistrationError (EnvVarNotSet "USER_EMAIL")
  end /\
  (truthy (environ identified_world !! "USER_NAME") = true ->
   truthy (environ identified_world !! "USER_EMAIL") = true ->
   exists user_info, snd (get_user_info identified_world) = Returns user_info).
Proof.
  apply (supplied_identifiers_pass_through identified_world "C9" "R1").
  - vm_compute. reflexivity.
  - discriminate.
  - vm_compute. reflexivity.
  - discriminate.
Defined.

(** C5, as stated, fails: with two customers named Acme the lookup
    succeeds, with the identifier of the first. *)
Lemma lookup_succeeds_on_two_matches :
  ~ (forall (w : World) (view : list users.row) (customer_name : string),
       connection (db w) = Some view -> next_fault (db w) = None ->
       ((exists id, snd (lookup_customer_id customer_name w) = Returns id) <->
        length (List.filter (fun r => String.eqb (snd r) customer_name)
                  (corporate_customers (db w))) = 1)).
Proof.
  intros H.
  destruct (H connected_world [] "Acme" eq_refl eq_refl) as [H1 _].
  assert (Hid : exists id, snd (lookup_customer_id "Acme" connected_world) = Returns id)
    by (exists "C1"; reflexivity).
  specialize (H1 Hid). vm_compute in H1. discriminate H1.
Qed.

(** C5, amended. While the store answers the query, a lookup by name
    succeeds if and only if at least one row matches, and returns the
    identifier of the first row of the result; it raises the not-found
    error exactly when no row matches. *)
Theorem name_lookup_takes_first_match (w : World) (view : list users.row) (name : string) :
  connection (db w) = Some view -> next_fault (db w) = None ->
  snd (lookup_customer_id name w) =
    match List.filter (fun r => String.eqb (snd r) name) (corporate_customers (db w)) with
    | [] => Raises (UserRegistrationError (CustomerNotFound name))
    | r :: _ => Returns (fst r)
    end /\
  snd (lookup_role_id name w) =
    match List.filter (fun r => String.eqb (snd r) name) (user_roles (db w)) with
    | [] => Raises (UserRegistrationError (RoleNotFound name))
    | r :: _ => Returns (fst r)
    end.
Proof.
  intros Hc Hf.
  destruct w as [env io lt d b tr]; destruct d as [cc ur ut conn ek gid nw fs].
  cbn in Hc, Hf. subst conn.
  unfold next_fault, pop_fault in Hf. cbn in Hf.
  unfold lookup_customer_id, lookup_role_id, bind, cursor_execute, pop_fault, fetchone,
    ret, raise.
  cbn.
  destruct fs as [|[e|] fs]; cbn in Hf; try discriminate Hf; cbn.
  all: split;
    match goal with
    | |- context [List.filter ?f ?l] => destruct (List.filter f l); reflexivity
    end.
Qed.

Lemma name_lookup_takes_first_match_witness :
  snd (lookup_customer_id "Acme" connected_world) =
    match List.filter (fun r => String.eqb (snd r) "Acme")
            (corporate_customers (db connected_world)) with
    | [] => Raises (UserRegistrationError (CustomerNotFound "Acme"))
    | r :: _ => Returns (fst r)
    end /\
  snd (lookup_role_id "Acme" connected_world) =
    match List.filter (fun r => String.eqb (snd r) "Acme")
            (user_roles (db connected_world)) with
    | [] => Raises (UserRegistrationError (RoleNotFound "Acme"))
    | r :: _ => Returns (fst r)
    end.
Proof.
  apply (name_lookup_takes_first_match connected_world []); reflexivity.
Defined.

(** ** The write step *)

Lemma duplicate_entry_mentions_duplicate (email key : string) :
  contains "Duplicate entry" (duplicate_entry email key) = true.
Proof. reflexivity. Qed.

(** C1, on the code. When the transaction already sees a user with the
    email, the insert is the only call [insert_user] makes: the error is
    raised without [connection.rollback()], the transaction stays open
    with its view unchanged, and so does the durable table. The error is
    the already-exists one when the server's message mentions "email"
    (in the address or in the name of the unique index), and the
    integrity one otherwise. *)
Theorem duplicate_email_raises_without_rollback
    (w : World) (view : list users.row) (user_info : UserInfo.t) :
  connection (db w) = Some view -> next_fault (db w) = None ->
  existsb (has_email (UserInfo.email user_info)) view = true ->
  let w' := fst (insert_user user_info w) in
  let text := duplicate_entry (UserInfo.email user_info) (email_key (db w)) in
  trace w' = trace w ++
    [DbExecute (InsertUser (UserInfo.customer_id user_info) (UserInfo.role_id user_info)
                  (UserInfo.name user_info) (UserInfo.email user_info))] /\
  forallb (fun ev => negb (is_db_rollback ev)) (drop (length (trace w)) (trace w')) = true /\
  connection (db w') = Some view /\
  users_table (db w') = users_table (db w) /\
  snd (insert_user user_info w) =
    Raises (UserRegistrationError
              (if contains "email" text
               then UserAlreadyExists (UserInfo.email user_info)
               else DatabaseIntegrityError text)).
Proof.
  intros Hc Hf Hex.
  destruct w as [env io lt d b tr]; destruct d as [cc ur ut conn ek gid nw fs].
  cbn in Hc, Hf. subst conn. unfold next_fault, pop_fault in Hf. cbn in Hf.
  cbn zeta.
  unfold insert_user, insert_user_except, try_except, bind, cursor_execute, pop_fault,
    run_query.
  cbn [db trace record_event connection faults email_key fst snd set_db set_faults].
  assert (D : forall evs : list Event, drop (length tr) (tr ++ evs) = evs)
    by (intros; apply drop_app_length).
  destruct fs as [|[e|] fs]; cbn in Hf; try discriminate Hf;
    cbn [db trace record_event connection faults email_key fst snd set_db set_faults];
    rewrite Hex; rewrite duplicate_entry_mentions_duplicate; cbn [andb];
    destruct (contains "email" (duplicate_entry (UserInfo.email user_info) ek));
    unfold raise; cbn [fst snd trace db connection users_table set_db record_event]; rewrite D;
    repeat split; reflexivity.
Qed.

Lemma duplicate_email_raises_without_rollback_witness :
  let w' := fst (insert_user alice duplicate_world) in
  let text := duplicate_entry (UserInfo.email alice) (email_key (db duplicate_world)) in
  trace w' = trace duplicate_world ++
    [DbExecute (InsertUser (UserInfo.customer_id alice) (UserInfo.role_id alice)
                  (UserInfo.name alice) (UserInfo.email alice))] /\
  forallb (fun ev => negb (is_db_rollback ev))
    (drop (length (trace duplicate_world)) (trace w')) = true /\
  connection (db w') = Some [users.mk "U0" "C1" "R1" "Alice A." "a@x.com" 1] /\
  users_table (db w') = users_table (db duplicate_world) /\
  snd (insert_user alice duplicate_world) =
    Raises (UserRegistrationError
              (if contains "email" text
               then UserAlreadyExists (UserInfo.email alice)
               else DatabaseIntegrityError text)).
Proof.
  apply (duplicate_email_raises_without_rollback duplicate_world
           [users.mk "U0" "C1" "R1" "Alice A." "a@x.com" 1] alice); reflexivity.
Defined.

(** C4, on the code. An insert that the store refuses with an integrity
    error (a duplicate, a foreign-key violation) ends [insert_user] at
    once: the trace gains the insert and nothing else, so there is no
    rollback before the error is reported, and the transaction stays
    open. *)
Theorem integrity_error_raises_without_rollback
    (w : World) (view : list users.row) (user_info : UserInfo.t) (text : string) :
  connection (db w) = Some view ->
  next_fault (db w) = Some (IntegrityError text) ->
  let w' := fst (insert_user user_info w) in
  trace w' = trace w ++
    [DbExecute (InsertUser (UserInfo.customer_id user_info) (UserInfo.role_id user_info)
                  (UserInfo.name user_info) (UserInfo.email user_info))] /\
  forallb (fun ev => negb (is_db_rollback ev)) (drop (length (trace w)) (trace w')) = true /\
  connection (db w') = Some view /\
  exists m, snd (insert_user user_info w) = Raises (UserRegistrationError m) /\
            (m = UserAlreadyExists (UserInfo.email user_info) \/
             m = DatabaseIntegrityError text).
Proof.
  intros Hc Hf.
  destruct w as [env io lt d b tr]; destruct d as [cc ur ut conn ek gid nw fs].
  cbn in Hc, Hf. subst conn. unfold next_fault, pop_fault in Hf. cbn in Hf.
  cbn zeta.
  unfold insert_user, insert_user_except, try_except, bind, cursor_execute, pop_fault,
    run_query.
  cbn [db trace record_event connection faults email_key fst snd set_db set_faults].
  assert (D : forall evs : list Event, drop (length tr) (tr ++ evs) = evs)
    by (intros; apply drop_app_length).
  destruct fs as [|[e|] fs]; cbn in Hf; try discriminate Hf.
  injection Hf as ->.
  cbn [db trace record_event connection faults email_key fst snd set_db set_faults].
  destruct (contains "Duplicate entry" text && contains "email" text);
    unfold raise; cbn [fst snd trace db connection users_table set_db record_event]; rewrite D;
    repeat split; eauto.
Qed.

Lemma integrity_error_raises_without_rollback_witness :
  let w' := fst (insert_user alice orphan_world) in
  trace w' = trace orphan_world ++
    [DbExecute (InsertUser (UserInfo.customer_id alice) (UserInfo.role_id alice)
                  (UserInfo.name alice) (UserInfo.email alice))] /\
  forallb (fun ev => negb (is_db_rollback ev))
    (drop (length (trace orphan_world)) (trace w')) = true /\
  connection (db w') = Some [] /\
  exists m, snd (insert_user alice orphan_world) = Raises (UserRegistrationError m) /\
            (m = UserAlreadyExists (UserInfo.email alice) \/
             m = DatabaseIntegrityError
                   "(1452, 'Cannot add or update a child row: a foreign key constraint fails')").
Proof.
  apply (integrity_error_raises_without_rollback orphan_world [] alice); reflexivity.
Defined.

(** ** The publish step *)

(** C8, on the code. When the broker accepts the connection and then
    fails the publish, [publish_event] raises without [nc.close()]: the
    trace ends with the publish and the client connection is still open. *)
Theorem failed_publish_leaves_connection_open
    (w : World) (nats_config : NATSConfig.t) (event_data : list (string * string))
    (uid e : string) (rest : list (option string)) :
  nats_faults (nats w) = None :: Some e :: rest ->
  let w' := fst (publish_event nats_config event_data uid w) in
  snd (publish_event nats_config event_data uid w) =
    Raises (UserRegistrationError (FailedToPublish e)) /\
  trace w' = trace w ++
    [NatsConnect (NATSConfig.server nats_config) (NATSConfig.user nats_config)
       (NATSConfig.password nats_config);
     JsPublish (NATSConfig.subject nats_config)
       (mkEventPayload "user_registered" uid (loop_time w) event_data)] /\
  nc_open (nats w') = true.
Proof.
  intros Hf.
  destruct w as [env io lt d b tr]; destruct b as [o js fs]. cbn in Hf. subst fs.
  unfold publish_event, try_except, bind, nats_connect, js_publish, nc_close, emit, ret,
    raise, pop_nats_fault.
  cbn. rewrite <- app_assoc. repeat split.
Qed.

Lemma failed_publish_leaves_connection_open_witness :
  let cfg := NATSConfig.mk "nats://broker:4222" "USERS" "users.registered" "pub" "hunter2" in
  let w' := fst (publish_event cfg [("user_name", "Alice")] "U1" rejecting_world) in
  snd (publish_event cfg [("user_name", "Alice")] "U1" rejecting_world) =
    Raises (UserRegistrationError (FailedToPublish "nats: no response from stream")) /\
  trace w' = trace rejecting_world ++
    [NatsConnect (NATSConfig.server cfg) (NATSConfig.user cfg) (NATSConfig.password cfg);
     JsPublish (NATSConfig.subject cfg)
       (mkEventPayload "user_registered" "U1" (loop_time rejecting_world)
          [("user_name", "Alice")])] /\
  nc_open (nats w') = true.
Proof.
  intros cfg.
  apply (failed_publish_leaves_connection_open rejecting_world cfg [("user_name", "Alice")]
           "U1" "nats: no response from stream" []).
  reflexivity.
Defined.

(** ** Runs of [main] *)

Lemma forallb_weaken {A} (P Q : A -> bool) (l : list A) :
  (forall x, P x = true -> Q x = true) -> forallb P l = true -> forallb Q l = true.
Proof.
  intros H. induction l as [|x l IH]; cbn; [reflexivity|].
  intros Hl. apply andb_true_iff in Hl as [Hx Hl].
  rewrite (H x Hx), (IH Hl). reflexivity.
Qed.

Lemma unwritten_no_broker_call ev : unwritten ev = true -> negb (is_broker_call ev) = true.
Proof. unfold unwritten. intros H. apply andb_true_iff in H. apply H. Qed.

Lemma unwritten_no_inserted_log ev : unwritten ev = true -> negb (is_inserted_log ev) = true.
Proof. unfold unwritten. intros H. apply andb_true_iff in H. apply H. Qed.

Lemma before_write_is_unwritten ev : before_write ev = true -> unwritten ev = true.
Proof. unfold before_write. intros H. apply andb_true_iff in H. apply H. Qed.

Lemma before_write_no_close ev : before_write ev = true -> negb (is_db_close ev) = true.
Proof. unfold before_write. intros H. apply andb_true_iff in H. apply H. Qed.

Lemma precedes_from_quiet (P Q : Event -> bool) (evs : list Event) (seen : bool) :
  forallb (fun ev => negb (Q ev)) evs = true -> precedes_from seen P Q evs = true.
Proof.
  revert seen. induction evs as [|ev evs IH]; intros seen; cbn; [reflexivity|].
  intros H. apply andb_true_iff in H as [Hq H]. rewrite Hq, (IH _ H). reflexivity.
Qed.

Lemma precedes_from_app (P Q : Event -> bool) (l1 l2 : list Event) (seen : bool) :
  forallb (fun ev => negb (Q ev)) l1 = true ->
  precedes_from seen P Q (l1 ++ l2) = precedes_from (seen || existsb P l1) P Q l2.
Proof.
  revert seen. induction l1 as [|ev l1 IH]; intros seen; cbn.
  - rewrite orb_false_r. reflexivity.
  - intros H. apply andb_true_iff in H as [Hq H].
    rewrite Hq, (IH _ H), orb_assoc. reflexivity.
Qed.

Lemma none_after_from_quiet (P Q : Event -> bool) (evs : list Event) (seen : bool) :
  forallb (fun ev => negb (Q ev)) evs = true -> none_after_from seen P Q evs = true.
Proof.
  revert seen. induction evs as [|ev evs IH]; intros seen; cbn; [reflexivity|].
  intros H. apply andb_true_iff in H as [Hq H].
  apply negb_true_iff in Hq. rewrite Hq, andb_false_r, (IH _ H). reflexivity.
Qed.

Lemma none_after_from_app (P Q : Event -> bool) (l1 l2 : list Event) :
  forallb (fun ev => negb (P ev)) l1 = true ->
  none_after_from false P Q (l1 ++ l2) = none_after_from false P Q l2.
Proof.
  induction l1 as [|ev l1 IH]; cbn; [reflexivity|].
  intros H. apply andb_true_iff in H as [Hp H].
  apply negb_true_iff in Hp. rewrite Hp. exact (IH H).
Qed.






(** C9, as stated, fails: in the sample run the broker is called while
    no [connection.close()] has been made yet. *)
Lemma store_connection_open_during_publish :
  existsb is_broker_call (events_of sample_world) = true /\
  precedes is_db_close is_broker_call (events_of sample_world) = false.
Proof. split; vm_compute; reflexivity. Qed.

(** C9, amended. In every run, each call to the broker comes after the
    commit and after the log line of the completed write, no call to the
    broker comes after [connection.close()], and a run that calls the
    broker closes the store connection (afterwards, then). *)
Theorem store_commits_before_and_closes_after_publish (w : World) :
  precedes is_db_commit is_broker_call (events_of w) = true /\
  precedes is_inserted_log is_broker_call (events_of w) = true /\
  none_after is_db_close is_broker_call (events_of w) = true /\
  implb (existsb is_broker_call (events_of w)) (existsb is_db_close (events_of w)) = true.
Proof.
  destruct (main_shape w)
    as [[U _] | [pre [ui [uid [t [cfg [post [E [F [_ [_ O]]]]]]]]]]].
  - pose proof (forallb_weaken _ _ _ unwritten_no_broker_call U) as Q.
    unfold precedes, none_after.
    rewrite !precedes_from_quiet, none_after_from_quiet by exact Q.
    repeat split.
    destruct (existsb is_broker_call (events_of w)) eqn:Ex; [|reflexivity].
    apply existsb_exists in Ex as [ev [Hin Hev]].
    rewrite forallb_forall in Q. specialize (Q ev Hin). rewrite Hev in Q. discriminate Q.
  - cbn zeta in *. rewrite E.
    pose proof (forallb_weaken _ _ _
                  (fun ev H => unwritten_no_broker_call ev (before_write_is_unwritten ev H)) F)
      as Q.
    pose proof (forallb_weaken _ _ _ before_write_no_close F) as C.
    unfold precedes, none_after.
    rewrite (precedes_from_app is_db_commit) by exact Q.
    rewrite (precedes_from_app is_inserted_log) by exact Q.
    rewrite none_after_from_app by exact C.
    rewrite !existsb_app.
    destruct (existsb is_db_commit pre), (existsb is_inserted_log pre),
      (existsb is_broker_call pre), (existsb is_db_close pre);
      inversion O; subst; repeat split; reflexivity.
Qed.

Lemma in_before_write (ev : Event) (pre : list Event) :
  forallb before_write pre = true -> In ev pre -> before_write ev = true.
Proof. intros F H. rewrite forallb_forall in F. exact (F ev H). Qed.

Lemma in_unwritten (ev : Event) (evs : list Event) :
  forallb unwritten evs = true -> In ev evs -> unwritten ev = true.
Proof. intros F H. rewrite forallb_forall in F. exact (F ev H). Qed.

(** A write that main logs as done has added its row, and only that, to
    the durable table the run ends with. *)
Lemma completed_write (w : World) (name uid : string) :
  In (LogInfo (InsertedUser name uid)) (events_of w) ->
  exists cid rid email t,
    In (DbExecute (InsertUser cid rid name email)) (events_of w) /\
    existsb (has_email email) (users_table (db w)) = false /\
    users_table (db (fst (main w))) =
      users_table (db w) ++ [users.mk uid cid rid name email t].
Proof.
  intros Hin.
  destruct (main_shape w)
    as [[U _] | [pre [ui [uid0 [t [cfg [post [E [F [Ex [Ut O]]]]]]]]]]].
  - pose proof (in_unwritten _ _ U Hin) as H. discriminate H.
  - cbn zeta in *. rewrite E in Hin.
    assert (Hev : name = UserInfo.name ui /\ uid = uid0).
    { apply in_app_or in Hin as [Hin|Hin].
      - pose proof (in_before_write _ _ F Hin) as H. discriminate H.
      - apply in_app_or in Hin as [Hin|Hin].
        + cbn in Hin.
          repeat (destruct Hin as [Hin|Hin]; [try discriminate Hin|]); try contradiction.
          injection Hin as <- <-. split; reflexivity.
        + inversion O; subst; cbn in Hin;
            repeat (destruct Hin as [Hin|Hin]; [discriminate Hin|]); contradiction. }
    destruct Hev as [-> ->].
    exists (UserInfo.customer_id ui), (UserInfo.role_id ui), (UserInfo.email ui), t.
    split; [|split; [exact Ex|exact Ut]].
    rewrite E. apply in_or_app. right. left. reflexivity.
Qed.

(** What a run hands to [js.publish]. *)
Lemma published_payload (w : World) (subject : string) (payload : EventPayload) :
  In (JsPublish subject payload) (events_of w) ->
  exists name uid,
    In (LogInfo (InsertedUser name uid)) (events_of w) /\
    payload = mkEventPayload "user_registered" uid (loop_time w)
                (prepare_event_data_loop user_vars [] (environ w)).
Proof.
  intros Hin.
  destruct (main_shape w)
    as [[U _] | [pre [ui [uid [t [cfg [post [E [F [Ex [Ut O]]]]]]]]]]].
  - pose proof (in_unwritten _ _ U Hin) as H. discriminate H.
  - cbn zeta in *. exists (UserInfo.name ui), uid. split.
    + rewrite E. apply in_or_app. right. cbn. tauto.
    + rewrite E in Hin. apply in_app_or in Hin as [Hin|Hin].
      * pose proof (in_before_write _ _ F Hin) as H. discriminate H.
      * apply in_app_or in Hin as [Hin|Hin].
        -- cbn in Hin.
           repeat (destruct Hin as [Hin|Hin]; [discriminate Hin|]); contradiction.
        -- inversion O; subst; cbn in Hin;
             repeat (destruct Hin as [Hin|Hin];
                     [first [discriminate Hin | injection Hin as _ <-; reflexivity]|]);
             contradiction.
Qed.

Lemma filter_none {A} (P : A -> bool) (l : list A) :
  forallb (fun x => negb (P x)) l = true -> List.filter P l = [].
Proof.
  induction l as [|x l IH]; cbn; [reflexivity|].
  intros H. apply andb_true_iff in H as [Hx H].
  apply negb_true_iff in Hx. rewrite Hx. exact (IH H).
Qed.

(** A run that exits with status 0 has published exactly once. *)
Lemma successful_run_publishes_once (w : World) :
  snd (main w) = 0%Z ->
  exists subject uid,
    List.filter is_js_publish (events_of w) =
      [JsPublish subject
         (mkEventPayload "user_registered" uid (loop_time w)
            (prepare_event_data_loop user_vars [] (environ w)))].
Proof.
  intros H0.
  destruct (main_shape w)
    as [[_ [_ H1]] | [pre [ui [uid [t [cfg [post [E [F [Ex [Ut O]]]]]]]]]]];
    [rewrite H0 in H1; discriminate H1|].
  cbn zeta in *. exists (NATSConfig.subject cfg), uid.
  rewrite E, List.filter_app.
  rewrite (filter_none is_js_publish pre).
  - rewrite H0 in O. inversion O; subst. reflexivity.
  - apply (forallb_weaken before_write); [|exact F].
    intros ev Hev. apply before_write_is_unwritten in Hev.
    apply unwritten_no_broker_call in Hev. destruct ev; try reflexivity; discriminate Hev.
Qed.

(** C2. In a run whose write completed, returning [uid], and whose
    publish step then failed, the durable [users] table at the end of the
    run is the table the run started from followed by one row: the one
    the write inserted, with the identifier [uid] and the values of the
    INSERT statement the run sent. *)
Theorem failed_publish_keeps_the_user_row (w : World) (name uid e : string) :
  In (LogInfo (InsertedUser name uid)) (events_of w) ->
  In (LogError (RegistrationError (FailedToPublish e))) (events_of w) ->
  exists cid rid email t,
    In (DbExecute (InsertUser cid rid name email)) (events_of w) /\
    users_table (db (fst (main w))) =
      users_table (db w) ++ [users.mk uid cid rid name email t].
Proof.
  intros Hw _.
  destruct (completed_write w name uid Hw) as [cid [rid [email [t [Hi [_ Hu]]]]]].
  exists cid, rid, email, t. split; assumption.
Qed.

Lemma failed_publish_keeps_the_user_row_witness :
  exists cid rid email t,
    In (DbExecute (InsertUser cid rid "Alice" email)) (events_of rejecting_world) /\
    users_table (db (fst (main rejecting_world))) =
      users_table (db rejecting_world) ++ [users.mk "U1" cid rid "Alice" email t].
Proof.
  apply (failed_publish_keeps_the_user_row rejecting_world "Alice" "U1"
           "nats: no response from stream").
  - vm_compute. repeat (first [left; reflexivity | right]).
  - vm_compute. repeat (first [left; reflexivity | right]).
Defined.

(** ** The event data *)

Lemma truthy_Some (s : string) : truthy (Some s) = true <-> s <> EmptyString.
Proof.
  unfold truthy. split.
  - intros H ->. discriminate H.
  - apply truthy_nonempty.
Qed.

Lemma prepare_event_data_loop_cons var rest event_data env :
  prepare_event_data_loop (var :: rest) event_data env =
    prepare_event_data_loop rest
      (if truthy (env !! var) then event_data ++ [(lower var, str_of (env !! var))]
       else event_data) env.
Proof. reflexivity. Qed.

(** The entries of the dict [prepare_event_data] builds: those it
    started from, and one per variable that is set and not empty. *)
Lemma prepare_event_data_loop_In vars event_data (env : gmap string string) k v :
  In (k, v) (prepare_event_data_loop vars event_data env) <->
  In (k, v) event_data \/
  exists var, In var vars /\ k = lower var /\ env !! var = Some v /\ v <> EmptyString.
Proof.
  revert event_data. induction vars as [|var vars IH]; intros event_data.
  - unfold prepare_event_data_loop. split; [tauto|].
    intros [H|[var [[] _]]]. exact H.
  - rewrite prepare_event_data_loop_cons, IH. clear IH.
    destruct (env !! var) as [x|] eqn:Ex.
    + destruct (truthy (Some x)) eqn:Tx.
      * apply truthy_Some in Tx. cbn [str_of]. rewrite in_app_iff. cbn [In]. split.
        -- intros [[H|[H|[]]]|[var' [Hin H]]].
           ++ left. exact H.
           ++ injection H as <- <-. right. exists var. cbn. tauto.
           ++ right. exists var'. cbn. tauto.
        -- intros [H|[var' [[<-|Hin] [-> [Hv Hne]]]]].
           ++ tauto.
           ++ rewrite Ex in Hv. injection Hv as ->. tauto.
           ++ right. exists var'. tauto.
      * assert (Hx : x = EmptyString).
        { destruct (String.eqb x EmptyString) eqn:E; [apply String.eqb_eq, E|].
          unfold truthy in Tx. rewrite E in Tx. discriminate Tx. }
        subst x. split.
        -- intros [H|[var' [Hin H]]]; [tauto|]. right. exists var'. cbn. tauto.
        -- intros [H|[var' [[<-|Hin] [-> [Hv Hne]]]]]; [tauto| |].
           ++ rewrite Ex in Hv. injection Hv as <-. contradiction.
           ++ right. exists var'. tauto.
    + cbn [truthy]. split.
      * intros [H|[var' [Hin H]]]; [tauto|]. right. exists var'. cbn. tauto.
      * intros [H|[var' [[<-|Hin] [-> [Hv Hne]]]]]; [tauto| |].
        -- rewrite Ex in Hv. discriminate Hv.
        -- right. exists var'. tauto.
Qed.

(** The dict depends on the environment through the listed variables
    only. *)
Lemma prepare_event_data_loop_agree vars event_data (env1 env2 : gmap string string) :
  (forall var, In var vars -> env1 !! var = env2 !! var) ->
  prepare_event_data_loop vars event_data env1 =
  prepare_event_data_loop vars event_data env2.
Proof.
  revert event_data. induction vars as [|var vars IH]; intros event_data H.
  - reflexivity.
  - rewrite !prepare_event_data_loop_cons, (H var (or_introl eq_refl)).
    apply IH. intros var' Hin. apply H. right. exact Hin.
Qed.

(** A key of the dict names its variable. *)
Lemma lower_user_var (var key : string) :
  In var user_vars -> In key user_vars -> lower var = lower key -> var = key.
Proof.
  unfold user_vars. cbn [In]. intros Hv Hk.
  repeat (destruct Hv as [<-|Hv]; [|]); try contradiction;
    repeat (destruct Hk as [<-|Hk]; [|]); try contradiction;
    intros H; first [reflexivity | vm_compute in H; discriminate H].
Qed.

(** C7, as stated, fails: in the sample run only the customer's name is
    supplied; the run resolves it to C1, inserts the user under C1 and
    succeeds, and the published data holds the name but no customer
    identifier. *)
Lemma resolved_identifier_missing_from_event_data :
  snd (main sample_world) = 0%Z /\
  sample_environ !! "CUSTOMER_ID" = None /\
  In (DbExecute (InsertUser "C1" "R1" "Alice" "a@x.com")) (events_of sample_world) /\
  List.filter is_js_publish (events_of sample_world) =
    [JsPublish "users.registered"
       (mkEventPayload "user_registered" "U1" "12.5"
          [("user_name", "Alice"); ("user_email", "a@x.com");
           ("customer_name", "Acme"); ("role_id", "R1")])].
Proof.
  repeat split; vm_compute; try reflexivity.
  repeat (first [left; reflexivity | right]).
Qed.

(** C7, amended. A successful run publishes one event, and the entries
    of its data are exactly the pairs of a lower-cased name of one of the
    six user variables and the value of that variable, for the variables
    that are set and not empty. No identifier found by name resolution is
    added: without CUSTOMER_ID (ROLE_ID) in the environment, the data has
    no customer_id (role_id) entry. *)
Theorem event_data_holds_the_supplied_attributes (w : World) :
  snd (main w) = 0%Z ->
  exists subject payload,
    List.filter is_js_publish (events_of w) = [JsPublish subject payload] /\
    (forall k v,
       In (k, v) (data payload) <->
       exists var, In var user_vars /\ k = lower var /\
                   environ w !! var = Some v /\ v <> EmptyString) /\
    (truthy (environ w !! "CUSTOMER_ID") = false ->
     forall v, ~ In ("customer_id", v) (data payload)) /\
    (truthy (environ w !! "ROLE_ID") = false ->
     forall v, ~ In ("role_id", v) (data payload)).
Proof.
  intros H0.
  destruct (successful_run_publishes_once w H0) as [subject [uid Hf]].
  exists subject. eexists. split; [exact Hf|]. cbn [data].
  assert (Hin : forall k v,
            In (k, v) (prepare_event_data_loop user_vars [] (environ w)) <->
            exists var, In var user_vars /\ k = lower var /\
                        environ w !! var = Some v /\ v <> EmptyString).
  { intros k v. rewrite prepare_event_data_loop_In. cbn [In]. tauto. }
  split; [exact Hin|].
  split; intros Hn v Hv; apply Hin in Hv as [var [Hvar [Hk [Hv Hne]]]].
  - assert (var = "CUSTOMER_ID")
      by (apply lower_user_var; [exact Hvar | cbn; tauto | symmetry; exact Hk]).
    subst var. rewrite Hv in Hn. apply truthy_Some in Hne. congruence.
  - assert (var = "ROLE_ID")
      by (apply lower_user_var; [exact Hvar | cbn; tauto | symmetry; exact Hk]).
    subst var. rewrite Hv in Hn. apply truthy_Some in Hne. congruence.
Qed.

Lemma event_data_holds_the_supplied_attributes_witness :
  exists subject payload,
    List.filter is_js_publish (events_of sample_world) = [JsPublish subject payload] /\
    (forall k v,
       In (k, v) (data payload) <->
       exists var, In var user_vars /\ k = lower var /\
                   environ sample_world !! var = Some v /\ v <> EmptyString) /\
    (truthy (environ sample_world !! "CUSTOMER_ID") = false ->
     forall v, ~ In ("customer_id", v) (data payload)) /\
    (truthy (environ sample_world !! "ROLE_ID") = false ->
     forall v, ~ In ("role_id", v) (data payload)).
Proof.
  apply (event_data_holds_the_supplied_attributes sample_world).
  vm_compute. reflexivity.
Defined.

(** C10. Whatever a run publishes has the fixed event type, the clock's
    time, the identifier the write returned, and data whose every entry
    is the value of one of the six user variables under that variable's
    lower-cased name. Two runs whose environments agree on these six
    variables publish the same data, however their DB_ and NATS_
    variables differ. *)
Theorem event_payload_draws_on_user_variables_only (w1 w2 : World) :
  (forall var, In var user_vars -> environ w1 !! var = environ w2 !! var) ->
  (forall subject payload,
     In (JsPublish subject payload) (events_of w1) ->
     event_type payload = "user_registered" /\
     timestamp payload = loop_time w1 /\
     (exists name, In (LogInfo (InsertedUser name (user_id payload))) (events_of w1)) /\
     forall k v, In (k, v) (data payload) ->
       exists var, In var user_vars /\ k = lower var /\ environ w1 !! var = Some v) /\
  (forall subject1 payload1 subject2 payload2,
     In (JsPublish subject1 payload1) (events_of w1) ->
     In (JsPublish subject2 payload2) (events_of w2) ->
     data payload1 = data payload2).
Proof.
  intros Hagree. split.
  - intros subject payload Hin.
    destruct (published_payload w1 subject payload Hin) as [name [uid [Hlog ->]]].
    cbn [event_type timestamp user_id data]. repeat split.
    + exists name. exact Hlog.
    + intros k v Hkv. apply prepare_event_data_loop_In in Hkv as [[]|[var H]].
      exists var. tauto.
  - intros s1 p1 s2 p2 H1 H2.
    destruct (published_payload w1 s1 p1 H1) as [n1 [u1 [_ ->]]].
    destruct (published_payload w2 s2 p2 H2) as [n2 [u2 [_ ->]]].
    cbn [data]. apply prepare_event_data_loop_agree. exact Hagree.
Qed.

Lemma event_payload_draws_on_user_variables_only_witness :
  (forall subject payload,
     In (JsPublish subject payload) (events_of sample_world) ->
     event_type payload = "user_registered" /\
     timestamp payload = loop_time sample_world /\
     (exists name,
        In (LogInfo (InsertedUser name (user_id payload))) (events_of sample_world)) /\
     forall k v, In (k, v) (data payload) ->
       exists var, In var user_vars /\ k = lower var /\
                   environ sample_world !! var = Some v) /\
  (forall subject1 payload1 subject2 payload2,
     In (JsPublish subject1 payload1) (events_of sample_world) ->
     In (JsPublish subject2 payload2) (events_of rekeyed_world) ->
     data payload1 = data payload2).
Proof.
  apply (event_payload_draws_on_user_variables_only sample_world rekeyed_world).
  intros var Hvar. unfold user_vars in Hvar. cbn [In] in Hvar.
  repeat (destruct Hvar as [<-|Hvar]; [vm_compute; reflexivity|]). contradiction.
Defined.

(** ** The configuration readers *)

Lemma get_env_var_required name w :
  get_env_var name true None w =
    (w, if negb (truthy (environ w !! name))
        then Raises (UserRegistrationError (EnvVarNotSet name))
        else Returns (environ w !! name)).
Proof.
  unfold get_env_var. destruct (environ w !! name) as [s|]; cbn [andb]; [|reflexivity].
  destruct (truthy (Some s)); reflexivity.
Qed.

Lemma get_env_var_optional name w :
  get_env_var name false None w = (w, Returns (environ w !! name)).
Proof. unfold get_env_var. destruct (environ w !! name); reflexivity. Qed.

Lemma get_env_var_default name d w :
  get_env_var name true (Some d) w =
    (w, let value := Some (default d (environ w !! name)) in
        if negb (truthy value)
        then Raises (UserRegistrationError (EnvVarNotSet name))
        else Returns value).
Proof.
  unfold get_env_var. destruct (environ w !! name) as [s|]; simpl.
  - destruct (String.eqb s _); reflexivity.
  - destruct (String.eqb d _); reflexivity.
Qed.

Ltac env_step w :=
  first [ rewrite get_env_var_required
        | rewrite get_env_var_optional
        | rewrite get_env_var_default
        | progress cbn [andb negb fst snd List.find default]
        | progress cbv beta iota zeta
        | match goal with
          | |- context [if negb (truthy ?v) then _ else _] =>
              destruct (truthy v) eqn:?
          end ].

Lemma get_nats_config_eq (w : World) :
  get_nats_config w =
    (w, match List.find (fun name => negb (truthy (environ w !! name))) nats_vars with
        | Some name => Raises (UserRegistrationError (EnvVarNotSet name))
        | None =>
            Returns (NATSConfig.mk (str_of (environ w !! "NATS_SERVER"))
                       (str_of (environ w !! "NATS_STREAM"))
                       (str_of (environ w !! "NATS_SUBJECT"))
                       (str_of (environ w !! "NATS_USER"))
                       (str_of (environ w !! "NATS_PASSWORD")))
        end).
Proof.
  unfold get_nats_config, nats_vars, bind, ret.
  repeat env_step w; reflexivity.
Qed.

(** X1. [get_nats_config] reads the five broker settings in the order
    server, stream, subject, user, password: it raises "Required
    environment variable NAME is not set" for the first of them that is
    unset or empty, and returns the five values when none is; the world
    is left as it was. *)
Theorem get_nats_config_reports_first_missing (w : World) :
  get_nats_config w =
    (w, match List.find (fun name => negb (truthy (environ w !! name))) nats_vars with
        | Some name => Raises (UserRegistrationError (EnvVarNotSet name))
        | None =>
            Returns (NATSConfig.mk (str_of (environ w !! "NATS_SERVER"))
                       (str_of (environ w !! "NATS_STREAM"))
                       (str_of (environ w !! "NATS_SUBJECT"))
                       (str_of (environ w !! "NATS_USER"))
                       (str_of (environ w !! "NATS_PASSWORD")))
        end).
Proof. exact (get_nats_config_eq w). Qed.

Lemma truthy_true_inv (v : option string) :
  truthy v = true -> v = Some (str_of v) /\ str_of v <> EmptyString.
Proof.
  destruct v as [s|]; [|discriminate]. intros H. split; [reflexivity|].
  simpl. apply truthy_Some. exact H.
Qed.

Lemma get_database_config_eq (w : World) :
  get_database_config w =
    (w, if negb (truthy (environ w !! "DB_HOST"))
        then Raises (UserRegistrationError (EnvVarNotSet "DB_HOST"))
        else if negb (truthy (Some (default "3306" (environ w !! "DB_PORT"))))
        then Raises (UserRegistrationError (EnvVarNotSet "DB_PORT"))
        else match int_of w (default "3306" (environ w !! "DB_PORT")) with
        | inr message => Raises (OtherException message)
        | inl port =>
          if negb (truthy (environ w !! "DB_USER"))
          then Raises (UserRegistrationError (EnvVarNotSet "DB_USER"))
          else if negb (truthy (environ w !! "DB_PASSWORD"))
          then Raises (UserRegistrationError (EnvVarNotSet "DB_PASSWORD"))
          else if negb (truthy (environ w !! "DB_NAME"))
          then Raises (UserRegistrationError (EnvVarNotSet "DB_NAME"))
          else Returns (DatabaseConfig.mk (str_of (environ w !! "DB_HOST")) port
                          (str_of (environ w !! "DB_USER"))
                          (str_of (environ w !! "DB_PASSWORD"))
                          (str_of (environ w !! "DB_NAME")))
        end).
Proof.
  unfold get_database_config, bind, ret, py_int.
  rewrite get_env_var_required.
  destruct (truthy (environ w !! "DB_HOST")); cbn [negb]; [|reflexivity].
  rewrite get_env_var_default. cbv zeta.
  destruct (truthy (Some _)); cbn [negb str_of]; [|reflexivity].
  destruct (int_of w _); [|reflexivity].
  repeat env_step w; reflexivity.
Qed.

(** X2. A configuration returned by [get_database_config] mirrors the
    environment: host, user, password and database are the non-empty
    values of DB_HOST, DB_USER, DB_PASSWORD and DB_NAME, and the port is
    [int] of DB_PORT, or of the default 3306 when DB_PORT is unset. *)
Theorem get_database_config_mirrors_environment (w w' : World) (cfg : DatabaseConfig.t) :
  get_database_config w = (w', Returns cfg) ->
  w' = w /\
  environ w !! "DB_HOST" = Some (DatabaseConfig.host cfg) /\
  DatabaseConfig.host cfg <> EmptyString /\
  environ w !! "DB_USER" = Some (DatabaseConfig.user cfg) /\
  DatabaseConfig.user cfg <> EmptyString /\
  environ w !! "DB_PASSWORD" = Some (DatabaseConfig.password cfg) /\
  DatabaseConfig.password cfg <> EmptyString /\
  environ w !! "DB_NAME" = Some (DatabaseConfig.database cfg) /\
  DatabaseConfig.database cfg <> EmptyString /\
  int_of w (default "3306" (environ w !! "DB_PORT")) = inl (DatabaseConfig.port cfg).
Proof.
  rewrite get_database_config_eq. intros H.
  destruct (truthy (environ w !! "DB_HOST")) eqn:Hh; [|discriminate H].
  destruct (truthy (Some _)) eqn:Hp; [|discriminate H].
  destruct (int_of w _) as [port|] eqn:Hi; [|discriminate H].
  destruct (truthy (environ w !! "DB_USER")) eqn:Hu; [|discriminate H].
  destruct (truthy (environ w !! "DB_PASSWORD")) eqn:Hw; [|discriminate H].
  destruct (truthy (environ w !! "DB_NAME")) eqn:Hn; [|discriminate H].
  cbn [negb] in H. inversion H; subst; clear H. cbn.
  apply truthy_true_inv in Hh, Hu, Hw, Hn.
  repeat split; tauto.
Qed.

Lemma get_database_config_mirrors_environment_witness :
  environ sample_world !! "DB_PORT" = None /\
  int_of sample_world "3306" =
    inl (DatabaseConfig.port (DatabaseConfig.mk "db" 3306 "app" "secret" "crm")).
Proof.
  split; [reflexivity|].
  refine (proj2 (proj2 (proj2 (proj2 (proj2 (proj2 (proj2 (proj2 (proj2
    (get_database_config_mirrors_environment sample_world sample_world
       (DatabaseConfig.mk "db" 3306 "app" "secret" "crm") _)))))))))).
  vm_compute. reflexivity.
Defined.

(** X3. The default port stands in for an unset DB_PORT only: with
    DB_HOST set, a DB_PORT that is set to the empty string makes
    [get_database_config] raise "Required environment variable DB_PORT is
    not set", whatever the other settings are. *)
Theorem empty_port_is_rejected_despite_default (w : World) (host : string) :
  environ w !! "DB_HOST" = Some host -> host <> EmptyString ->
  environ w !! "DB_PORT" = Some EmptyString ->
  get_database_config w = (w, Raises (UserRegistrationError (EnvVarNotSet "DB_PORT"))).
Proof.
  intros Hh Hne Hp. rewrite get_database_config_eq, Hh, Hp.
  rewrite (truthy_nonempty _ Hne). reflexivity.
Qed.

Lemma empty_port_is_rejected_despite_default_witness :
  get_database_config empty_port_world =
    (empty_port_world, Raises (UserRegistrationError (EnvVarNotSet "DB_PORT"))).
Proof.
  apply (empty_port_is_rejected_despite_default empty_port_world "db");
    [reflexivity | discriminate | reflexivity].
Defined.

(** ** Runs that stop before the registration block *)

Lemma get_database_config_frame (w w1 : World) :
  environ w1 = environ w -> int_of w1 = int_of w ->
  get_database_config w1 = (w1, snd (get_database_config w)).
Proof.
  intros He Hi. rewrite !get_database_config_eq. cbn [snd]. rewrite He, Hi. reflexivity.
Qed.

Lemma get_nats_config_frame (w w1 : World) :
  environ w1 = environ w -> get_nats_config w1 = (w1, snd (get_nats_config w)).
Proof.
  intros He. rewrite !get_nats_config_eq. cbn [snd]. rewrite He. reflexivity.
Qed.

Lemma pop_fault_frame (d : Database) :
  connection (snd (pop_fault d)) = connection d /\
  users_table (snd (pop_fault d)) = users_table d.
Proof. unfold pop_fault. destruct (faults d); split; reflexivity. Qed.

(** X4. A DB_PORT that [int] rejects ends the run at once: apart from
    the opening log line, the run only reports "Unexpected error: ..."
    (not a registration error) with the message of the [ValueError] that
    [int] raised, exits with status 1, and reaches neither the database
    nor the broker. *)
Theorem unparsable_port_is_an_unexpected_error (w : World) (host port text : string) :
  environ w !! "DB_HOST" = Some host -> host <> EmptyString ->
  environ w !! "DB_PORT" = Some port -> port <> EmptyString ->
  int_of w port = inr text ->
  events_of w = [LogInfo StartingRegistration; LogError (UnexpectedError text);
                 PrintErr ("Unexpected error: " +:+ text)] /\
  snd (main w) = 1%Z /\ db (fst (main w)) = db w /\ nats (fst (main w)) = nats w.
Proof.
  intros Hh Hhne Hp Hpne Hi.
  assert (E : get_database_config (record_event (LogInfo StartingRegistration) w) =
              (record_event (LogInfo StartingRegistration) w, Raises (OtherException text))).
  { rewrite get_database_config_eq. cbn [environ int_of record_event].
    rewrite Hh, Hp. cbn [default from_option id]. rewrite Hi.
    rewrite !truthy_nonempty by assumption. reflexivity. }
  assert (Hm : main w =
    (record_event (PrintErr ("Unexpected error: " +:+ text))
       (record_event (LogError (UnexpectedError text))
          (record_event (LogInfo StartingRegistration) w)), 1%Z)).
  { unfold main, main_try. rewrite bind_emit, (bind_raises _ _ _ _ _ E). reflexivity. }
  split; [|rewrite Hm; repeat split; reflexivity].
  apply events_of_eq. rewrite Hm. cbn. rewrite <- !app_assoc. reflexivity.
Qed.

Lemma unparsable_port_is_an_unexpected_error_witness :
  events_of bad_port_world =
    [LogInfo StartingRegistration;
     LogError (UnexpectedError "invalid literal for int() with base 10: 'mysql'");
     PrintErr "Unexpected error: invalid literal for int() with base 10: 'mysql'"] /\
  snd (main bad_port_world) = 1%Z /\
  db (fst (main bad_port_world)) = db bad_port_world /\
  nats (fst (main bad_port_world)) = nats bad_port_world.
Proof.
  apply (unparsable_port_is_an_unexpected_error bad_port_world "db" "mysql"
           "invalid literal for int() with base 10: 'mysql'");
    [reflexivity | discriminate | reflexivity | discriminate | reflexivity].
Defined.

(** X5. The database is contacted only once both configurations are
    read: when the database settings are complete but a broker setting is
    unset or empty, the run reports "Error: Required environment variable
    NAME is not set" for the first such setting, exits with status 1, and
    makes no call to the database or the broker. *)
Theorem missing_broker_setting_stops_before_database
  (w : World) (cfg : DatabaseConfig.t) (name : string) :
  snd (get_database_config w) = Returns cfg ->
  List.find (fun name => negb (truthy (environ w !! name))) nats_vars = Some name ->
  events_of w = [LogInfo StartingRegistration;
                 LogError (RegistrationError (EnvVarNotSet name));
                 PrintErr ("Error: " +:+ message_text (EnvVarNotSet name))] /\
  snd (main w) = 1%Z /\ db (fst (main w)) = db w /\ nats (fst (main w)) = nats w.
Proof.
  intros Hd Hn.
  set (w1 := record_event (LogInfo StartingRegistration) w).
  assert (E1 : get_database_config w1 = (w1, Returns cfg)).
  { rewrite (get_database_config_frame w w1), Hd; reflexivity. }
  assert (E2 : get_nats_config w1 =
               (w1, Raises (UserRegistrationError (EnvVarNotSet name)))).
  { rewrite get_nats_config_eq. cbn [environ record_event w1]. unfold w1.
    cbn [environ record_event]. rewrite Hn. reflexivity. }
  assert (Hm : main w =
    (record_event (PrintErr ("Error: " +:+ message_text (EnvVarNotSet name)))
       (record_event (LogError (RegistrationError (EnvVarNotSet name))) w1), 1%Z)).
  { unfold main, main_try. rewrite bind_emit. fold w1.
    rewrite (bind_returns _ _ _ _ _ E1), (bind_raises _ _ _ _ _ E2). reflexivity. }
  split; [|rewrite Hm; repeat split; reflexivity].
  apply events_of_eq. rewrite Hm. cbn. rewrite <- !app_assoc. reflexivity.
Qed.

Lemma missing_broker_setting_stops_before_database_witness :
  events_of no_subject_world =
    [LogInfo StartingRegistration;
     LogError (RegistrationError (EnvVarNotSet "NATS_SUBJECT"));
     PrintErr "Error: Required environment variable NATS_SUBJECT is not set"] /\
  snd (main no_subject_world) = 1%Z /\
  db (fst (main no_subject_world)) = db no_subject_world /\
  nats (fst (main no_subject_world)) = nats no_subject_world.
Proof.
  apply (missing_broker_setting_stops_before_database no_subject_world
           (DatabaseConfig.mk "db" 3306 "app" "secret" "crm") "NATS_SUBJECT");
    vm_compute; reflexivity.
Defined.

(** X6. [pymysql.connect] is outside the [try ... finally]: when both
    configurations are read and the server refuses the connection, the
    connect is the run's only database call (no query, no rollback and
    no [connection.close()]), no broker call is made, and the run exits
    with status 1 with the users table as it was. *)
Theorem refused_connection_is_not_closed
  (w : World) (cfg : DatabaseConfig.t) (ncfg : NATSConfig.t) (e : Exception) :
  snd (get_database_config w) = Returns cfg ->
  snd (get_nats_config w) = Returns ncfg ->
  next_fault (db w) = Some e ->
  List.filter is_db_call (events_of w) = [DbConnect cfg] /\
  List.filter is_broker_call (events_of w) = [] /\
  snd (main w) = 1%Z /\
  users_table (db (fst (main w))) = users_table (db w) /\
  connection (db (fst (main w))) = connection (db w).
Proof.
  intros Hd Hn Hf.
  set (w1 := record_event (LogInfo StartingRegistration) w).
  assert (E1 : get_database_config w1 = (w1, Returns cfg)).
  { rewrite (get_database_config_frame w w1), Hd; reflexivity. }
  assert (E2 : get_nats_config w1 = (w1, Returns ncfg)).
  { rewrite (get_nats_config_frame w w1), Hn; reflexivity. }
  set (w2 := record_event (DbConnect cfg) (record_event (LogInfo ConnectingToDatabase) w1)).
  assert (E3 : main_try w = (set_db (snd (pop_fault (db w))) w2, Raises e)).
  { unfold main_try. rewrite bind_emit. fold w1.
    rewrite (bind_returns _ _ _ _ _ E1), (bind_returns _ _ _ _ _ E2), bind_emit.
    unfold bind, pymysql_connect. cbn [db record_event w1].
    unfold next_fault in Hf. destruct (pop_fault (db w)) as [f d].
    cbn [fst] in Hf. subst f. reflexivity. }
  destruct (pop_fault_frame (db w)) as [Hc Hu].
  assert (Hm : exists ev1 ev2,
    main w = (record_event ev2 (record_event ev1 (set_db (snd (pop_fault (db w))) w2)), 1%Z) /\
    is_db_call ev1 = false /\ is_db_call ev2 = false /\
    is_broker_call ev1 = false /\ is_broker_call ev2 = false).
  { unfold main. rewrite E3. destruct e; do 2 eexists; (split; [reflexivity|]);
      repeat split; reflexivity. }
  destruct Hm as (ev1 & ev2 & Hm & H1 & H2 & H3 & H4).
  assert (Hev : events_of w =
    [LogInfo StartingRegistration; LogInfo ConnectingToDatabase; DbConnect cfg; ev1; ev2]).
  { apply events_of_eq. rewrite Hm. cbn. rewrite <- !app_assoc. reflexivity. }
  rewrite Hev, Hm. cbn. rewrite H1, H2, H3, H4. repeat split; assumption.
Qed.

Lemma refused_connection_is_not_closed_witness :
  List.filter is_db_call (events_of unreachable_world) =
    [DbConnect (DatabaseConfig.mk "db" 3306 "app" "secret" "crm")] /\
  List.filter is_broker_call (events_of unreachable_world) = [] /\
  snd (main unreachable_world) = 1%Z /\
  users_table (db (fst (main unreachable_world))) = users_table (db unreachable_world) /\
  connection (db (fst (main unreachable_world))) = connection (db unreachable_world).
Proof.
  apply (refused_connection_is_not_closed unreachable_world
           (DatabaseConfig.mk "db" 3306 "app" "secret" "crm")
           (NATSConfig.mk "nats://broker:4222" "USERS" "users.registered" "pub" "hunter2")
           (OtherException "(2003, 'Cannot connect to MySQL server')"));
    vm_compute; reflexivity.
Defined.

(** ** Reference resolution *)

Lemma first_match_In (rows : list (string * string)) (name : string) r rest :
  List.filter (fun r => String.eqb (snd r) name) rows = r :: rest ->
  In (fst r, name) rows.
Proof.
  intros H.
  assert (Hin : In r (List.filter (fun r => String.eqb (snd r) name) rows))
    by (rewrite H; left; reflexivity).
  apply filter_In in Hin. destruct Hin as [Hin Heq].
  apply String.eqb_eq in Heq. destruct r as [i n]. simpl in *. subst n. exact Hin.
Qed.

Lemma no_match_filter (rows : list (string * string)) (name : string) :
  (forall id, ~ In (id, name) rows) ->
  List.filter (fun r => String.eqb (snd r) name) rows = [].
Proof.
  intros H. destruct (List.filter _ rows) as [|r rest] eqn:E; [reflexivity|].
  exfalso. exact (H _ (first_match_In _ _ _ _ E)).
Qed.

Lemma lookup_customer_id_returns name w w' id :
  lookup_customer_id name w = (w', Returns id) ->
  In (id, name) (corporate_customers (db w)) /\
  environ w' = environ w /\ user_roles (db w') = user_roles (db w).
Proof.
  destruct w as [env io lt d b tr]; destruct d as [cc ur ut conn ek gid nw fs].
  unfold lookup_customer_id, bind, cursor_execute, pop_fault, fetchone, ret, raise. cbn.
  destruct conn as [view|]; [|discriminate].
  destruct fs as [|[e|] fs]; cbn; try discriminate.
  all: destruct (List.filter _ cc) as [|r rest] eqn:E; cbn; try discriminate.
  all: intros H; inversion H; subst; clear H; cbn.
  all: split; [exact (first_match_In _ _ _ _ E) | split; reflexivity].
Qed.

Lemma lookup_role_id_returns name w w' id :
  lookup_role_id name w = (w', Returns id) ->
  In (id, name) (user_roles (db w)) /\ environ w' = environ w.
Proof.
  destruct w as [env io lt d b tr]; destruct d as [cc ur ut conn ek gid nw fs].
  unfold lookup_role_id, bind, cursor_execute, pop_fault, fetchone, ret, raise. cbn.
  destruct conn as [view|]; [|discriminate].
  destruct fs as [|[e|] fs]; cbn; try discriminate.
  all: destruct (List.filter _ ur) as [|r rest] eqn:E; cbn; try discriminate.
  all: intros H; inversion H; subst; clear H; cbn.
  all: split; [exact (first_match_In _ _ _ _ E) | reflexivity].
Qed.

Ltac resolve_step :=
  first [ rewrite get_env_var_required
        | rewrite get_env_var_optional
        | rewrite andb_false_r
        | progress cbn [andb negb]
        | progress cbv beta iota
        | match goal with
          | H : truthy (environ _ !! _) = _ |- _ => rewrite H
          end ].

(** X7. The customer reference is checked first and without the store:
    with a name and an email but neither CUSTOMER_ID nor CUSTOMER_NAME
    (unset or empty), [get_user_info] raises "Either CUSTOMER_ID or
    CUSTOMER_NAME must be provided" and leaves the world, trace included,
    as it found it, whatever the role settings are. *)
Theorem missing_customer_reference_is_rejected_without_query (w : World) :
  truthy (environ w !! "USER_NAME") = true ->
  truthy (environ w !! "USER_EMAIL") = true ->
  truthy (environ w !! "CUSTOMER_ID") = false ->
  truthy (environ w !! "CUSTOMER_NAME") = false ->
  get_user_info w = (w, Raises (UserRegistrationError CustomerRefMissing)).
Proof.
  intros Hn He Hc Hcn. unfold get_user_info, bind.
  repeat resolve_step. reflexivity.
Qed.

Lemma missing_customer_reference_is_rejected_without_query_witness :
  get_user_info anonymous_world =
    (anonymous_world, Raises (UserRegistrationError CustomerRefMissing)).
Proof.
  apply (missing_customer_reference_is_rejected_without_query anonymous_world);
    reflexivity.
Defined.

(** X8. With a name, an email and a customer identifier but neither
    ROLE_ID nor ROLE_NAME, [get_user_info] raises "Either ROLE_ID or
    ROLE_NAME must be provided" and leaves the world as it found it: the
    supplied customer identifier costs no query. *)
Theorem missing_role_reference_is_rejected_without_query (w : World) :
  truthy (environ w !! "USER_NAME") = true ->
  truthy (environ w !! "USER_EMAIL") = true ->
  truthy (environ w !! "CUSTOMER_ID") = true ->
  truthy (environ w !! "ROLE_ID") = false ->
  truthy (environ w !! "ROLE_NAME") = false ->
  get_user_info w = (w, Raises (UserRegistrationError RoleRefMissing)).
Proof.
  intros Hn He Hc Hr Hrn. unfold get_user_info, bind.
  repeat resolve_step. unfold ret. repeat resolve_step. reflexivity.
Qed.

Lemma missing_role_reference_is_rejected_without_query_witness :
  get_user_info roleless_world =
    (roleless_world, Raises (UserRegistrationError RoleRefMissing)).
Proof.
  apply (missing_role_reference_is_rejected_without_query roleless_world);
    reflexivity.
Defined.

Lemma bind_returns_inv {A B} (m : M A) (k : A -> M B) w w' b :
  bind m k w = (w', Returns b) ->
  exists w1 a, m w = (w1, Returns a) /\ k a w1 = (w', Returns b).
Proof.
  unfold bind. destruct (m w) as [w1 [a|e]]; [|discriminate].
  intros H. exists w1, a. split; [reflexivity | exact H].
Qed.

Lemma get_env_var_required_returns name w w' v :
  get_env_var name true None w = (w', Returns v) ->
  w' = w /\ v = environ w !! name /\ truthy (environ w !! name) = true.
Proof.
  rewrite get_env_var_required.
  destruct (truthy (environ w !! name)); cbn [negb]; [|discriminate].
  intros H. inversion H. repeat split; reflexivity.
Qed.

Lemma get_env_var_optional_returns name w w' v :
  get_env_var name false None w = (w', Returns v) -> w' = w /\ v = environ w !! name.
Proof. rewrite get_env_var_optional. intros H. inversion H. split; reflexivity. Qed.

(** The customer step of [get_user_info], past its check. *)
Lemma resolve_customer_returns (id name : option string) w w1 customer_id :
  negb (truthy id) && negb (truthy name) = false ->
  (if truthy name && negb (truthy id)
   then lookup_customer_id (str_of name)
   else ret (str_of id)) w = (w1, Returns customer_id) ->
  environ w1 = environ w /\ user_roles (db w1) = user_roles (db w) /\
  (id = Some customer_id /\ customer_id <> EmptyString \/
   truthy id = false /\
   exists n, name = Some n /\ n <> EmptyString /\
             In (customer_id, n) (corporate_customers (db w))).
Proof.
  intros Hchk H.
  destruct (truthy id) eqn:Hi; cbn [negb andb] in *.
  - rewrite andb_false_r in H. inversion H; subst.
    apply truthy_true_inv in Hi. repeat split; try reflexivity. left. exact Hi.
  - destruct (truthy name) eqn:Hn; cbn [negb andb] in *; [|discriminate Hchk].
    apply lookup_customer_id_returns in H as (Hin & He & Hr).
    apply truthy_true_inv in Hn as [Hn Hne].
    repeat split; try assumption. right. split; [reflexivity|].
    exists (str_of name). repeat split; assumption.
Qed.

(** The role step of [get_user_info], past its check. *)
Lemma resolve_role_returns (id name : option string) w w1 role_id :
  negb (truthy id) && negb (truthy name) = false ->
  (if truthy name && negb (truthy id)
   then lookup_role_id (str_of name)
   else ret (str_of id)) w = (w1, Returns role_id) ->
  id = Some role_id /\ role_id <> EmptyString \/
  truthy id = false /\
  exists n, name = Some n /\ n <> EmptyString /\ In (role_id, n) (user_roles (db w)).
Proof.
  intros Hchk H.
  destruct (truthy id) eqn:Hi; cbn [negb andb] in *.
  - rewrite andb_false_r in H. inversion H; subst.
    apply truthy_true_inv in Hi. left. exact Hi.
  - destruct (truthy name) eqn:Hn; cbn [negb andb] in *; [|discriminate Hchk].
    apply lookup_role_id_returns in H as (Hin & He).
    apply truthy_true_inv in Hn as [Hn Hne].
    right. split; [reflexivity|].
    exists (str_of name). repeat split; assumption.
Qed.

(** X9. What [get_user_info] returns is backed by the request and the
    store: the name and the email are the non-empty values of USER_NAME
    and USER_EMAIL, and each of the customer and role identifiers is
    either the non-empty identifier supplied, or, when none was supplied,
    the identifier of a row of the corresponding table whose name is the
    non-empty name supplied. *)
Theorem resolved_user_info_is_backed_by_request_and_store
  (w w' : World) (user_info : UserInfo.t) :
  get_user_info w = (w', Returns user_info) ->
  (environ w !! "USER_NAME" = Some (UserInfo.name user_info) /\
   UserInfo.name user_info <> EmptyString) /\
  (environ w !! "USER_EMAIL" = Some (UserInfo.email user_info) /\
   UserInfo.email user_info <> EmptyString) /\
  (environ w !! "CUSTOMER_ID" = Some (UserInfo.customer_id user_info) /\
   UserInfo.customer_id user_info <> EmptyString \/
   truthy (environ w !! "CUSTOMER_ID") = false /\
   exists n, environ w !! "CUSTOMER_NAME" = Some n /\ n <> EmptyString /\
     In (UserInfo.customer_id user_info, n) (corporate_customers (db w))) /\
  (environ w !! "ROLE_ID" = Some (UserInfo.role_id user_info) /\
   UserInfo.role_id user_info <> EmptyString \/
   truthy (environ w !! "ROLE_ID") = false /\
   exists n, environ w !! "ROLE_NAME" = Some n /\ n <> EmptyString /\
     In (UserInfo.role_id user_info, n) (user_roles (db w))).
Proof.
  intros H. unfold get_user_info in H.
  apply bind_returns_inv in H as (w1 & name & H1 & H).
  apply get_env_var_required_returns in H1 as (-> & -> & Hn).
  apply bind_returns_inv in H as (w1 & email & H1 & H).
  apply get_env_var_required_returns in H1 as (-> & -> & He).
  apply bind_returns_inv in H as (w1 & cid & H1 & H).
  apply get_env_var_optional_returns in H1 as (-> & ->).
  apply bind_returns_inv in H as (w1 & cn & H1 & H).
  apply get_env_var_optional_returns in H1 as (-> & ->).
  destruct (negb _ && negb _) eqn:Hchk in H; [discriminate H|].
  apply bind_returns_inv in H as (w1 & customer_id & Hcust & H).
  apply (resolve_customer_returns _ _ _ _ _ Hchk) in Hcust as (Henv & Hroles & Hcust).
  apply bind_returns_inv in H as (w2 & rid & H1 & H).
  apply get_env_var_optional_returns in H1 as (-> & ->).
  apply bind_returns_inv in H as (w2 & rn & H1 & H).
  apply get_env_var_optional_returns in H1 as (-> & ->).
  destruct (negb _ && negb _) eqn:Hchk' in H; [discriminate H|].
  apply bind_returns_inv in H as (w2 & role_id & Hrole & H).
  apply (resolve_role_returns _ _ _ _ _ Hchk') in Hrole.
  rewrite Henv, Hroles in Hrole.
  inversion H; subst; clear H. cbn.
  apply truthy_true_inv in Hn, He.
  repeat split; tauto.
Qed.

Lemma resolved_user_info_is_backed_by_request_and_store_witness :
  In (UserInfo.customer_id alice, "Acme") (corporate_customers (db connected_world)).
Proof.
  destruct (resolved_user_info_is_backed_by_request_and_store connected_world
              (fst (get_user_info connected_world)) alice)
    as (_ & _ & [[Hid _] | (_ & n & Hn & _ & Hin)] & _).
  - vm_compute. reflexivity.
  - discriminate Hid.
  - injection Hn as <-. exact Hin.
Defined.

(** X10. A customer name the store does not know stops the resolution
    at the customer: with a name, an email, no CUSTOMER_ID and a
    CUSTOMER_NAME matching no row, over an open connection whose query
    the server answers, [get_user_info] raises "Customer 'NAME' not
    found" after this one query; the role is not looked at. *)
Theorem unknown_customer_name_stops_resolution
  (w : World) (view : list users.row) (name : string) :
  truthy (environ w !! "USER_NAME") = true ->
  truthy (environ w !! "USER_EMAIL") = true ->
  truthy (environ w !! "CUSTOMER_ID") = false ->
  environ w !! "CUSTOMER_NAME" = Some name -> name <> EmptyString ->
  connection (db w) = Some view -> next_fault (db w) = None ->
  (forall id, ~ In (id, name) (corporate_customers (db w))) ->
  snd (get_user_info w) = Raises (UserRegistrationError (CustomerNotFound name)) /\
  trace (fst (get_user_info w)) = trace w ++ [DbExecute (SelectCustomerId name)].
Proof.
  intros Hn He Hc Hcn Hne Hconn Hf Hnone.
  apply no_match_filter in Hnone.
  assert (Ht : truthy (environ w !! "CUSTOMER_NAME") = true)
    by (rewrite Hcn; apply truthy_nonempty; exact Hne).
  unfold get_user_info, bind. repeat resolve_step. rewrite Hcn. cbn [str_of].
  destruct w as [env io lt d b tr]; destruct d as [cc ur ut conn ek gid nw fs].
  cbn in Hconn, Hf, Hnone. subst conn.
  unfold next_fault, pop_fault in Hf. cbn in Hf.
  unfold lookup_customer_id, bind, cursor_execute, pop_fault, fetchone, run_query, raise.
  cbn. destruct fs as [|[e|] fs]; cbn in Hf; try discriminate Hf; cbn.
  all: rewrite Hnone; cbn; split; reflexivity.
Qed.

Lemma unknown_customer_name_stops_resolution_witness :
  snd (get_user_info unknown_customer_world) =
    Raises (UserRegistrationError (CustomerNotFound "Globex")) /\
  trace (fst (get_user_info unknown_customer_world)) =
    trace unknown_customer_world ++ [DbExecute (SelectCustomerId "Globex")].
Proof.
  apply (unknown_customer_name_stops_resolution unknown_customer_world [] "Globex");
    try reflexivity; try discriminate.
  intros id [H | [H | []]]; discriminate H.
Defined.

(** ** The write step *)

(** X11. When [insert_user] returns over an open connection, it has
    sent the insert, the two selects and the commit, in this order, and
    logged the success; no user the transaction saw had the email; the
    identifier returned is the one the store generated; and the durable
    table is what the transaction saw followed by the new row, which
    carries that identifier and the four values given. Process and
    broker are untouched. *)
Theorem successful_insert_commits_one_row
  (user_info : UserInfo.t) (w w' : World) (user_id : string) (view : list users.row) :
  connection (db w) = Some view ->
  insert_user user_info w = (w', Returns user_id) ->
  trace w' = trace w ++
    [DbExecute (InsertUser (UserInfo.customer_id user_info) (UserInfo.role_id user_info)
                  (UserInfo.name user_info) (UserInfo.email user_info));
     DbExecute SelectLastInsertId;
     DbExecute (SelectUserIdByEmail (UserInfo.email user_info));
     DbCommit;
     LogInfo (InsertedUser (UserInfo.name user_info) user_id)] /\
  existsb (has_email (UserInfo.email user_info)) view = false /\
  user_id = generated_id (db w) /\
  users_table (db w') =
    view ++ [users.mk user_id (UserInfo.customer_id user_info) (UserInfo.role_id user_info)
               (UserInfo.name user_info) (UserInfo.email user_info) (now (db w))] /\
  connection (db w') = Some (users_table (db w')) /\
  same_process w w' /\ nats w' = nats w.
Proof. apply insert_user_returns. Qed.

Lemma successful_insert_commits_one_row_witness :
  users_table (db (fst (insert_user alice connected_world))) =
    [] ++ [users.mk "U1" "C1" "R1" "Alice" "a@x.com" 5].
Proof.
  refine (proj1 (proj2 (proj2 (proj2
    (successful_insert_commits_one_row alice connected_world
       (fst (insert_user alice connected_world)) "U1" [] _ _))))).
  - reflexivity.
  - vm_compute. reflexivity.
Defined.

(** X12. A failed commit is rolled back. Over an open connection that
    sees no user with the email, when the server performs the insert and
    the two selects, fails the commit with an error that is no integrity
    error, and then performs the rollback, [insert_user] raises "Failed
    to insert user: ..." with the server's message; the durable table is
    as before and the transaction has fallen back to it. *)
Theorem failed_commit_is_rolled_back
  (user_info : UserInfo.t) (w : World) (view : list users.row) (text : string) :
  connection (db w) = Some view ->
  existsb (has_email (UserInfo.email user_info)) view = false ->
  fault_at 0 (db w) = None -> fault_at 1 (db w) = None -> fault_at 2 (db w) = None ->
  fault_at 3 (db w) = Some (OtherException text) ->
  fault_at 4 (db w) = None ->
  let w' := fst (insert_user user_info w) in
  snd (insert_user user_info w) = Raises (UserRegistrationError (FailedToInsertUser text)) /\
  trace w' = trace w ++
    [DbExecute (InsertUser (UserInfo.customer_id user_info) (UserInfo.role_id user_info)
                  (UserInfo.name user_info) (UserInfo.email user_info));
     DbExecute SelectLastInsertId;
     DbExecute (SelectUserIdByEmail (UserInfo.email user_info));
     DbCommit; DbRollback] /\
  users_table (db w') = users_table (db w) /\
  connection (db w') = Some (users_table (db w)).
Proof.
  intros Hc Hex H0 H1 H2 H3 H4.
  destruct w as [env io lt d b tr]; destruct d as [cc ur ut conn ek gid nw fs].
  cbn in Hc. subst conn. unfold fault_at in *. cbn [db faults] in *.
  destruct fs as [|[?|] [|[?|] [|[?|] [|[?|] fs]]]]; cbn in H0, H1, H2, H3;
    try discriminate.
  injection H3 as ->.
  cbn zeta.
  unfold insert_user, insert_user_except, try_except, bind, cursor_execute, connection_commit,
    connection_rollback, emit, ret, raise, pop_fault, fetchone, run_query.
  cbn. rewrite Hex. cbn.
  rewrite newest_inserted by (assumption || reflexivity). cbn.
  destruct fs as [|[?|] fs]; cbn in H4; try discriminate H4; cbn.
  all: rewrite <- ?app_assoc; repeat split; reflexivity.
Qed.

Lemma failed_commit_is_rolled_back_witness :
  let w' := fst (insert_user alice commit_failure_world) in
  snd (insert_user alice commit_failure_world) =
    Raises (UserRegistrationError
              (FailedToInsertUser "(2013, 'Lost connection to MySQL server during query')")) /\
  trace w' = trace commit_failure_world ++
    [DbExecute (InsertUser (UserInfo.customer_id alice) (UserInfo.role_id alice)
                  (UserInfo.name alice) (UserInfo.email alice));
     DbExecute SelectLastInsertId;
     DbExecute (SelectUserIdByEmail (UserInfo.email alice));
     DbCommit; DbRollback] /\
  users_table (db w') = users_table (db commit_failure_world) /\
  connection (db w') = Some (users_table (db commit_failure_world)).
Proof.
  apply (failed_commit_is_rolled_back alice commit_failure_world []); reflexivity.
Defined.

(** X13. A failing rollback hides the error it was cleaning up after:
    over an open connection, when the server fails the insert with an
    error that is no integrity error and then fails the rollback too,
    [insert_user] raises the rollback's exception as it is, not wrapped
    in a registration error, after the insert and the rollback; the
    durable table is as before. *)
Theorem failed_rollback_escapes_unwrapped
  (user_info : UserInfo.t) (w : World) (view : list users.row)
  (text : string) (e : Exception) :
  connection (db w) = Some view ->
  fault_at 0 (db w) = Some (OtherException text) ->
  fault_at 1 (db w) = Some e ->
  let w' := fst (insert_user user_info w) in
  snd (insert_user user_info w) = Raises e /\
  trace w' = trace w ++
    [DbExecute (InsertUser (UserInfo.customer_id user_info) (UserInfo.role_id user_info)
                  (UserInfo.name user_info) (UserInfo.email user_info));
     DbRollback] /\
  users_table (db w') = users_table (db w).
Proof.
  intros Hc H0 H1.
  destruct w as [env io lt d b tr]; destruct d as [cc ur ut conn ek gid nw fs].
  cbn in Hc. subst conn. unfold fault_at in *. cbn [db faults] in *.
  destruct fs as [|[?|] [|[?|] fs]]; cbn in H0, H1; try discriminate.
  injection H0 as ->. injection H1 as ->.
  cbn zeta.
  unfold insert_user, insert_user_except, try_except, bind, cursor_execute,
    connection_rollback, raise, pop_fault.
  cbn. rewrite <- ?app_assoc. repeat split; reflexivity.
Qed.

Lemma failed_rollback_escapes_unwrapped_witness :
  let w' := fst (insert_user alice rollback_failure_world) in
  snd (insert_user alice rollback_failure_world) =
    Raises (OtherException "(2006, 'MySQL server has gone away')") /\
  trace w' = trace rollback_failure_world ++
    [DbExecute (InsertUser (UserInfo.customer_id alice) (UserInfo.role_id alice)
                  (UserInfo.name alice) (UserInfo.email alice));
     DbRollback] /\
  users_table (db w') = users_table (db rollback_failure_world).
Proof.
  apply (failed_rollback_escapes_unwrapped alice rollback_failure_world []
           "(1205, 'Lock wait timeout exceeded')"); reflexivity.
Defined.

(** X14. However [insert_user] fails over an open connection, nothing
    durable has changed: the users table is as before, the connection is
    still open, process and broker are untouched, and the trace has
    gained no success log, no broker call and no [connection.close()]. *)
Theorem failed_insert_changes_nothing_durable
  (user_info : UserInfo.t) (w w' : World) (e : Exception) (view : list users.row) :
  connection (db w) = Some view ->
  insert_user user_info w = (w', Raises e) ->
  (exists evs, trace w' = trace w ++ evs /\ forallb before_write evs = true) /\
  users_table (db w') = users_table (db w) /\
  connection (db w') <> None /\
  same_process w w' /\ nats w' = nats w.
Proof. apply insert_user_raises. Qed.

Lemma failed_insert_changes_nothing_durable_witness :
  users_table (db (fst (insert_user alice commit_failure_world))) =
    users_table (db commit_failure_world).
Proof.
  refine (proj1 (proj2
    (failed_insert_changes_nothing_durable alice commit_failure_world
       (fst (insert_user alice commit_failure_world))
       (UserRegistrationError
          (FailedToInsertUser "(2013, 'Lost connection to MySQL server during query')"))
       [] _ _))).
  - reflexivity.
  - vm_compute. reflexivity.
Defined.

(** ** The event data *)

Lemma prepare_event_data_loop_flat_map vars event_data (env : gmap string string) :
  prepare_event_data_loop vars event_data env =
    event_data ++ flat_map (event_data_entry env) vars.
Proof.
  revert event_data. induction vars as [|var vars IH]; intros event_data.
  - unfold prepare_event_data_loop. cbn. rewrite app_nil_r. reflexivity.
  - rewrite prepare_event_data_loop_cons, IH. cbn [flat_map]. unfold event_data_entry at 2.
    destruct (truthy (env !! var)); [rewrite <- app_assoc|]; reflexivity.
Qed.

Lemma event_data_keys_among (env : gmap string string) vars k :
  In k (List.map fst (flat_map (event_data_entry env) vars)) -> In k (List.map lower vars).
Proof.
  induction vars as [|var vars IH]; cbn [flat_map List.map]; [tauto|].
  rewrite List.map_app, in_app_iff. intros [H|H].
  - unfold event_data_entry in H. destruct (truthy (env !! var)); cbn in H; [|tauto].
    left. tauto.
  - right. exact (IH H).
Qed.

Lemma event_data_keys_NoDup (env : gmap string string) vars :
  List.NoDup (List.map lower vars) ->
  List.NoDup (List.map fst (flat_map (event_data_entry env) vars)).
Proof.
  induction vars as [|var vars IH]; cbn [flat_map List.map]; intros H.
  - constructor.
  - inversion H as [|x l Hx Hl]; subst. rewrite List.map_app.
    unfold event_data_entry at 1. destruct (truthy (env !! var)); cbn [List.map fst app].
    + constructor; [|exact (IH Hl)].
      intros Hin. apply Hx. exact (event_data_keys_among _ _ _ Hin).
    + exact (IH Hl).
Qed.

(** X15. [prepare_event_data] leaves the world as it is and returns the
    entries of the six user variables in the order USER_NAME, USER_EMAIL,
    CUSTOMER_ID, CUSTOMER_NAME, ROLE_ID, ROLE_NAME, one entry for each
    variable that is set and not empty and none for the others; no key
    occurs twice, so no assignment of the loop overwrites an earlier
    one. *)
Theorem event_data_follows_the_variable_order (w : World) :
  exists event_data,
    prepare_event_data w = (w, Returns event_data) /\
    event_data = flat_map (event_data_entry (environ w)) user_vars /\
    List.NoDup (List.map fst event_data).
Proof.
  eexists. split; [reflexivity|].
  rewrite prepare_event_data_loop_flat_map. cbn [app]. split; [reflexivity|].
  apply event_data_keys_NoDup. vm_compute.
  repeat (constructor; [cbn; intuition discriminate|]). constructor.
Qed.

(** ** The publish step, outcome by outcome *)

(** X16. [publish_event] never touches the store or the process, and
    the stream gains at most the one message built from the subject, the
    fixed event type, the user identifier, the clock and the data. When
    it returns, the stream has gained this message and the client
    connection is closed; when it raises, the exception is "Failed to
    publish NATS event: ..." and no other. *)
Theorem publish_event_appends_at_most_one_message
  (cfg : NATSConfig.t) (event_data : list (string * string)) (uid : string) (w : World) :
  let payload := mkEventPayload "user_registered" uid (loop_time w) event_data in
  let subject := NATSConfig.subject cfg in
  let w' := fst (publish_event cfg event_data uid w) in
  let r := snd (publish_event cfg event_data uid w) in
  db w' = db w /\ same_process w w' /\
  (jetstream (nats w') = jetstream (nats w) \/
   jetstream (nats w') = jetstream (nats w) ++ [(subject, payload)]) /\
  (r = Returns tt ->
   jetstream (nats w') = jetstream (nats w) ++ [(subject, payload)] /\
   nc_open (nats w') = false) /\
  (forall e, r = Raises e -> exists text, e = UserRegistrationError (FailedToPublish text)).
Proof.
  destruct w as [env io lt d b tr]; destruct b as [op js fs].
  unfold publish_event, try_except, bind, nats_connect, js_publish, nc_close, emit, raise,
    pop_nats_fault, same_process.
  cbn.
  destruct fs as [|[e1|] [|[e2|] [|[e3|] fs]]]; cbn;
    repeat split; try reflexivity; try (intros; discriminate); eauto.
  all: intros e H; inversion H; eauto.
Qed.

(** X17. A failure of [nc.close()] is reported as a failure to publish
    although the event is out: when the broker accepts the connection,
    acknowledges the message and then fails the close, [publish_event]
    raises "Failed to publish NATS event: ..." with the close's message,
    while the stream has gained the message and the client connection is
    still open. *)
Theorem failed_close_reports_a_published_event_as_failed
  (cfg : NATSConfig.t) (event_data : list (string * string)) (uid : string) (w : World)
  (e : string) :
  nats_fault_at 0 (nats w) = None -> nats_fault_at 1 (nats w) = None ->
  nats_fault_at 2 (nats w) = Some e ->
  let payload := mkEventPayload "user_registered" uid (loop_time w) event_data in
  let subject := NATSConfig.subject cfg in
  let w' := fst (publish_event cfg event_data uid w) in
  snd (publish_event cfg event_data uid w) =
    Raises (UserRegistrationError (FailedToPublish e)) /\
  jetstream (nats w') = jetstream (nats w) ++ [(subject, payload)] /\
  nc_open (nats w') = true /\
  trace w' = trace w ++
    [NatsConnect (NATSConfig.server cfg) (NATSConfig.user cfg) (NATSConfig.password cfg);
     JsPublish subject payload; LogInfo (PublishedEvent subject); NcClose].
Proof.
  intros H0 H1 H2.
  destruct w as [env io lt d b tr]; destruct b as [op js fs].
  unfold nats_fault_at in *. cbn [nats nats_faults] in *.
  destruct fs as [|[e1|] [|[e2|] [|[e3|] fs]]]; cbn in H0, H1, H2; try discriminate.
  injection H2 as ->.
  unfold publish_event, try_except, bind, nats_connect, js_publish, nc_close, emit, raise,
    pop_nats_fault.
  cbn. rewrite <- ?app_assoc. repeat split; reflexivity.
Qed.

Lemma failed_close_reports_a_published_event_as_failed_witness :
  let payload := mkEventPayload "user_registered" "U1" (loop_time close_failure_world) [] in
  let subject := NATSConfig.subject sample_nats_config in
  let w' := fst (publish_event sample_nats_config [] "U1" close_failure_world) in
  snd (publish_event sample_nats_config [] "U1" close_failure_world) =
    Raises (UserRegistrationError (FailedToPublish "nats: connection lost")) /\
  jetstream (nats w') = jetstream (nats close_failure_world) ++ [(subject, payload)] /\
  nc_open (nats w') = true /\
  trace w' = trace close_failure_world ++
    [NatsConnect (NATSConfig.server sample_nats_config) (NATSConfig.user sample_nats_config)
       (NATSConfig.password sample_nats_config);
     JsPublish subject payload; LogInfo (PublishedEvent subject); NcClose].
Proof.
  apply (failed_close_reports_a_published_event_as_failed sample_nats_config [] "U1"
           close_failure_world "nats: connection lost"); reflexivity.
Defined.

(** X18. A refused broker connection publishes nothing: when
    [nats.connect] fails, [publish_event] raises "Failed to publish NATS
    event: ..." with the connection's message after this one call; the
    stream and the client connection are as before. *)
Theorem refused_broker_connection_publishes_nothing
  (cfg : NATSConfig.t) (event_data : list (string * string)) (uid : string) (w : World)
  (e : string) :
  nats_fault_at 0 (nats w) = Some e ->
  let w' := fst (publish_event cfg event_data uid w) in
  snd (publish_event cfg event_data uid w) =
    Raises (UserRegistrationError (FailedToPublish e)) /\
  trace w' = trace w ++
    [NatsConnect (NATSConfig.server cfg) (NATSConfig.user cfg) (NATSConfig.password cfg)] /\
  jetstream (nats w') = jetstream (nats w) /\
  nc_open (nats w') = nc_open (nats w).
Proof.
  intros H0.
  destruct w as [env io lt d b tr]; destruct b as [op js fs].
  unfold nats_fault_at in *. cbn [nats nats_faults] in *.
  destruct fs as [|[e1|] fs]; cbn in H0; try discriminate.
  injection H0 as ->.
  unfold publish_event, try_except, bind, nats_connect, raise, pop_nats_fault.
  cbn. repeat split; reflexivity.
Qed.

Lemma refused_broker_connection_publishes_nothing_witness :
  let w := set_nats (mkBroker false [] [Some "nats: no servers available for connection"])
             sample_world in
  let w' := fst (publish_event sample_nats_config [] "U1" w) in
  snd (publish_event sample_nats_config [] "U1" w) =
    Raises (UserRegistrationError
              (FailedToPublish "nats: no servers available for connection")) /\
  trace w' = trace w ++
    [NatsConnect (NATSConfig.server sample_nats_config) (NATSConfig.user sample_nats_config)
       (NATSConfig.password sample_nats_config)] /\
  jetstream (nats w') = jetstream (nats w) /\
  nc_open (nats w') = nc_open (nats w).
Proof.
  apply (refused_broker_connection_publishes_nothing sample_nats_config [] "U1"
           (set_nats (mkBroker false [] [Some "nats: no servers available for connection"])
              sample_world)
           "nats: no servers available for connection"); reflexivity.
Defined.

(** ** Whole runs *)

Lemma grows_silent {A} (m : M A) : silent m -> grows m.
Proof. intros H w. exists []. rewrite (H w), app_nil_r. reflexivity. Qed.

Lemma grows_ret {A} (a : A) : grows (ret a).
Proof. apply grows_silent, silent_ret. Qed.

Lemma grows_raise {A} (e : Exception) : grows (@raise A e).
Proof. intros w. exists []. cbn. rewrite app_nil_r. reflexivity. Qed.

Lemma grows_emit (ev : Event) : grows (emit ev).
Proof. intros w. exists [ev]. reflexivity. Qed.

Lemma grows_bind {A B} (m : M A) (k : A -> M B) :
  grows m -> (forall a, grows (k a)) -> grows (bind m k).
Proof.
  intros Hm Hk w. unfold bind. destruct (Hm w) as [evs H].
  destruct (m w) as [w1 [a|e]]; cbn [fst] in *.
  - destruct (Hk a w1) as [evs' H']. exists (evs ++ evs').
    rewrite H', H, app_assoc. reflexivity.
  - exists evs. exact H.
Qed.

Lemma grows_try_except {A} (body : M A) (handler : Exception -> M A) :
  grows body -> (forall e, grows (handler e)) -> grows (try_except body handler).
Proof.
  intros Hm Hk w. unfold try_except. destruct (Hm w) as [evs H].
  destruct (body w) as [w1 [a|e]]; cbn [fst] in *.
  - exists evs. exact H.
  - destruct (Hk e w1) as [evs' H']. exists (evs ++ evs').
    rewrite H', H, app_assoc. reflexivity.
Qed.

Lemma grows_reader {A} (m : M A) : reader m -> grows m.
Proof. intros H w. destruct (H w) as [[evs [E _]] _]. exists evs. exact E. Qed.

Ltac grows_call :=
  let w := fresh "w" in
  intros w; eexists; cbn;
  repeat match goal with
         | |- context [match ?x with _ => _ end] => destruct x; cbn
         end;
  reflexivity.

Lemma grows_cursor_execute q : grows (cursor_execute q).
Proof. unfold cursor_execute. grows_call. Qed.

Lemma grows_connection_commit : grows connection_commit.
Proof. unfold connection_commit. grows_call. Qed.

Lemma grows_connection_rollback : grows connection_rollback.
Proof. unfold connection_rollback. grows_call. Qed.

Lemma grows_publish_event cfg event_data uid : grows (publish_event cfg event_data uid).
Proof.
  intros w. destruct (publish_event_spec cfg event_data uid w) as (_ & _ & H).
  cbn zeta in H. destruct H as [[_ H] | [e [_ [H | [H | H]]]]]; eexists; exact H.
Qed.

Ltac grows_step :=
  first [ apply grows_emit | apply grows_ret | apply grows_raise
        | apply grows_cursor_execute | apply grows_connection_commit
        | apply grows_connection_rollback | apply grows_publish_event
        | apply grows_reader, reader_get_user_info
        | apply grows_bind; [|intros ?]
        | apply grows_try_except; [|intros ?]
        | match goal with
          | |- grows (if ?b then _ else _) => destruct b
          | |- grows (match ?x with _ => _ end) => destruct x
          end ].

Lemma grows_insert_user user_info : grows (insert_user user_info).
Proof. unfold insert_user, insert_user_except. repeat grows_step. Qed.

Lemma fst_try_finally {A} (body : M A) (cleanup : M unit) w :
  fst (try_finally body cleanup w) = fst (cleanup (fst (body w))).
Proof.
  unfold try_finally. destruct (body w) as [wb r]. cbn [fst].
  destruct (cleanup wb) as [w' [u|e]]; reflexivity.
Qed.

Lemma connection_close_closes w : connection (db (fst (connection_close w))) = None.
Proof.
  unfold connection_close. cbn. destruct (connection (db w)) eqn:E; cbn; [reflexivity | exact E].
Qed.

(** However the block under [try ... finally] ends, its last call is
    [connection.close()], and the connection is closed. *)
Lemma main_registration_ends_with_close cfg w :
  connection (db (fst (main_registration cfg w))) = None /\
  exists evs, trace (fst (main_registration cfg w)) = trace w ++ evs ++ [DbClose].
Proof.
  unfold main_registration. rewrite fst_try_finally.
  split; [apply connection_close_closes|].
  match goal with |- context [connection_close (fst (?body w))] =>
    assert (G : grows body) end.
  { repeat first [ apply grows_insert_user
                   | apply (grows_silent prepare_event_data); intros ?; reflexivity
                   | grows_step ]. }
  destruct (G w) as [evs H].
  match goal with |- context [connection_close ?wb] =>
    destruct (connection_close_frame wb) as [T _] end.
  cbn zeta in T. exists evs. rewrite T, H, app_assoc. reflexivity.
Qed.

(** X19. Once [pymysql.connect] has succeeded, the run closes the store
    connection whatever happens next: when both configurations are read
    and the server accepts the connection, the run's events are the two
    opening log lines, the connect, the events of the block, one
    [connection.close()] after them, and then at most the error report,
    with no further database call; the connection is closed when the run
    ends. *)
Theorem store_connection_is_closed_after_the_block
  (w : World) (cfg : DatabaseConfig.t) (ncfg : NATSConfig.t) :
  snd (get_database_config w) = Returns cfg ->
  snd (get_nats_config w) = Returns ncfg ->
  next_fault (db w) = None ->
  connection (db (fst (main w))) = None /\
  exists evs tail,
    events_of w =
      [LogInfo StartingRegistration; LogInfo ConnectingToDatabase; DbConnect cfg]
        ++ evs ++ [DbClose] ++ tail /\
    forallb (fun ev => negb (is_db_call ev)) tail = true.
Proof.
  intros Hd Hn Hf.
  set (w1 := record_event (LogInfo StartingRegistration) w).
  assert (E1 : get_database_config w1 = (w1, Returns cfg)).
  { rewrite (get_database_config_frame w w1), Hd; reflexivity. }
  assert (E2 : get_nats_config w1 = (w1, Returns ncfg)).
  { rewrite (get_nats_config_frame w w1), Hn; reflexivity. }
  assert (E3 : exists w2, main_try w = main_registration ncfg w2 /\
                 trace w2 = trace w ++ [LogInfo StartingRegistration;
                                        LogInfo ConnectingToDatabase; DbConnect cfg]).
  { unfold main_try. rewrite bind_emit. fold w1.
    rewrite (bind_returns _ _ _ _ _ E1), (bind_returns _ _ _ _ _ E2), bind_emit.
    unfold bind, pymysql_connect. cbn [db record_event w1].
    unfold next_fault in Hf. destruct (pop_fault (db w)) as [f d].
    cbn [fst] in Hf. subst f. eexists. split; [reflexivity|].
    cbn. rewrite <- !app_assoc. reflexivity. }
  destruct E3 as (w2 & E3 & T2).
  destruct (main_registration_ends_with_close ncfg w2) as (Hc & evs & T).
  unfold events_of, main. rewrite E3.
  destruct (main_registration ncfg w2) as [w' r]. cbn [fst] in Hc, T.
  rewrite T2 in T.
  destruct r as [u|[m|t|t]]; cbn [fst snd db trace record_event];
    (split; [exact Hc|]); exists evs; [exists [] | eexists | eexists | eexists];
    rewrite T, <- ?app_assoc; (split; [apply drop_app_length | reflexivity]).
Qed.

Lemma store_connection_is_closed_after_the_block_witness :
  connection (db (fst (main rejecting_world))) = None /\
  exists evs tail,
    events_of rejecting_world =
      [LogInfo StartingRegistration; LogInfo ConnectingToDatabase;
       DbConnect sample_database_config] ++ evs ++ [DbClose] ++ tail /\
    forallb (fun ev => negb (is_db_call ev)) tail = true.
Proof.
  apply (store_connection_is_closed_after_the_block rejecting_world
           sample_database_config sample_nats_config); vm_compute; reflexivity.
Defined.

(** X20. A run either exits with status 0 or ends by reporting its
    error and exits with status 1: the last two events of a failing run
    are the error log line and the same message on standard error,
    "Error: ..." for a registration error and "Unexpected error: ..."
    for any other exception. *)
Theorem failing_run_ends_with_its_error_report (w : World) :
  snd (main w) = 0%Z \/
  (snd (main w) = 1%Z /\
   exists evs record text,
     events_of w = evs ++ [LogError record; PrintErr text] /\
     ((exists m, record = RegistrationError m /\ text = "Error: " +:+ message_text m) \/
      (exists s, record = UnexpectedError s /\ text = "Unexpected error: " +:+ s))).
Proof.
  destruct (main_try w) as [w' r] eqn:H.
  assert (G : exists evs, trace w' = trace w ++ evs).
  { destruct (main_try_shape _ _ _ H)
      as [(evs & e & T & _) | (pre & ui & uid & t & cfg & post & T & _)];
      eexists; exact T. }
  destruct G as [evs T].
  unfold events_of, main. rewrite H.
  destruct r as [u|[m|t|t]]; [left; reflexivity | right | right | right].
  all: split; [reflexivity|]; exists evs; do 2 eexists.
  all: cbn [fst trace record_event]; rewrite T, <- !app_assoc.
  all: split; [apply drop_app_length|]; eauto.
Qed.

(** X21. A run never changes or removes a user row and adds at most
    one. Either the durable table is as before, no write is logged as
    done and the run exits with status 1; or the table has gained one
    row at its end, whose email no earlier row had, and the run sent the
    insert of this row's values and logged the write with this row's
    name and identifier. *)
Theorem run_adds_at_most_one_user_row (w : World) :
  (users_table (db (fst (main w))) = users_table (db w) /\
   forallb (fun ev => negb (is_inserted_log ev)) (events_of w) = true /\
   snd (main w) = 1%Z) \/
  (exists row,
     users_table (db (fst (main w))) = users_table (db w) ++ [row] /\
     existsb (has_email (users.email row)) (users_table (db w)) = false /\
     In (DbExecute (InsertUser (users.customer_id row) (users.role_id row)
                      (users.name row) (users.email row))) (events_of w) /\
     In (LogInfo (InsertedUser (users.name row) (users.id row))) (events_of w)).
Proof.
  destruct (main_shape w)
    as [(U & T & S) | (pre & ui & uid & t & cfg & post & E & F & Ex & Ut & O)].
  - left. repeat split; try assumption.
    apply (forallb_weaken unwritten); [apply unwritten_no_inserted_log | exact U].
  - right. cbn zeta in *. eexists. split; [exact Ut|]. cbn.
    split; [exact Ex|]. rewrite E.
    split; apply in_or_app; right; cbn; tauto.
Qed.

(** X22. A run that exits with status 0 has registered and announced
    the same user: the durable table has gained one row, the run
    published exactly one event, whose user identifier is this row's, it
    printed "User registered successfully with ID: ..." with this
    identifier, and its last call was [connection.close()]. *)
Theorem successful_run_registers_and_announces_one_user (w : World) :
  snd (main w) = 0%Z ->
  exists row subject payload evs,
    users_table (db (fst (main w))) = users_table (db w) ++ [row] /\
    List.filter is_js_publish (events_of w) = [JsPublish subject payload] /\
    user_id payload = users.id row /\
    events_of w =
      evs ++ [Print ("User registered successfully with ID: " +:+ users.id row); DbClose].
Proof.
  intros H0.
  destruct (main_shape w)
    as [(_ & _ & S) | (pre & ui & uid & t & cfg & post & E & F & Ex & Ut & O)];
    [rewrite H0 in S; discriminate S|].
  cbn zeta in *. rewrite H0 in O. inversion O; subst post. clear O.
  do 4 eexists. split; [exact Ut|]. cbn [users.id].
  split; [|split; [|rewrite E; rewrite app_assoc;
    change [JsPublish ?s ?p; ?a; ?b; ?c; ?d; ?e] with ([JsPublish s p; a; b; c] ++ [d; e]);
    rewrite app_assoc; reflexivity]].
  - rewrite E, !List.filter_app, (filter_none is_js_publish pre).
    + reflexivity.
    + apply (forallb_weaken before_write); [|exact F].
      intros ev Hev. apply before_write_is_unwritten in Hev.
      apply unwritten_no_broker_call in Hev. destruct ev; try reflexivity; discriminate Hev.
  - reflexivity.
Qed.

Lemma successful_run_registers_and_announces_one_user_witness :
  exists row subject payload evs,
    users_table (db (fst (main sample_world))) = users_table (db sample_world) ++ [row] /\
    List.filter is_js_publish (events_of sample_world) = [JsPublish subject payload] /\
    user_id payload = users.id row /\
    events_of sample_world =
      evs ++ [Print ("User registered successfully with ID: " +:+ users.id row); DbClose].
Proof.
  apply (successful_run_registers_and_announces_one_user sample_world).
  vm_compute. reflexivity.
Defined.

(** X23. The lookups have no handler of their own: with a name, an
    email, no CUSTOMER_ID and a CUSTOMER_NAME, over an open connection
    whose server fails the query, [get_user_info] raises the driver's
    exception as it is, not wrapped in a registration error, after this
    one query, and the users table is as before. *)
Theorem failed_lookup_query_escapes_unwrapped
  (w : World) (view : list users.row) (name : string) (e : Exception) :
  truthy (environ w !! "USER_NAME") = true ->
  truthy (environ w !! "USER_EMAIL") = true ->
  truthy (environ w !! "CUSTOMER_ID") = false ->
  environ w !! "CUSTOMER_NAME" = Some name -> name <> EmptyString ->
  connection (db w) = Some view -> next_fault (db w) = Some e ->
  snd (get_user_info w) = Raises e /\
  trace (fst (get_user_info w)) = trace w ++ [DbExecute (SelectCustomerId name)] /\
  users_table (db (fst (get_user_info w))) = users_table (db w).
Proof.
  intros Hn He Hc Hcn Hne Hconn Hf.
  assert (Ht : truthy (environ w !! "CUSTOMER_NAME") = true)
    by (rewrite Hcn; apply truthy_nonempty; exact Hne).
  unfold get_user_info, bind. repeat resolve_step. rewrite Hcn. cbn [str_of].
  destruct w as [env io lt d b tr]; destruct d as [cc ur ut conn ek gid nw fs].
  cbn in Hconn, Hf. subst conn.
  unfold next_fault, pop_fault in Hf. cbn in Hf.
  unfold lookup_customer_id, bind, cursor_execute, pop_fault.
  cbn. destruct fs as [|[e'|] fs]; cbn in Hf; try discriminate Hf.
  injection Hf as ->. cbn. repeat split; reflexivity.
Qed.

Lemma failed_lookup_query_escapes_unwrapped_witness :
  snd (get_user_info lost_connection_world) =
    Raises (OtherException "(2013, 'Lost connection to MySQL server during query')") /\
  trace (fst (get_user_info lost_connection_world)) =
    trace lost_connection_world ++ [DbExecute (SelectCustomerId "Acme")] /\
  users_table (db (fst (get_user_info lost_connection_world))) =
    users_table (db lost_connection_world).
Proof.
  apply (failed_lookup_query_escapes_unwrapped lost_connection_world [] "Acme");
    try reflexivity; discriminate.
Defined.
